(** * Blackjack rules engine: cards, deck, hand valuation, comparator, rounds

    A shallow embedding of [game.py] (and of the comparator duplicated in
    [window.py]) together with the properties its specification states.

    Python integers are unbounded, so totals, bets and balances are [Z].
    Python lists are [list]s in index order: [cards.append c] is
    [cards ++ [c]] and [cards.pop()] removes the last element.  Phases
    and messages are the strings the program uses.  The one float
    computation, [bet * 1.5], is done on binary64 values as [SpecFloat]
    specifies them.  Exceptions are values of [exn]; a method of
    [BlackjackGame] is a function from the object's fields to an outcome
    that keeps the fields as they were when the method returned or
    raised. *)

From Stdlib Require Import ZArith List String Bool Lia Permutation.
From Stdlib Require Import DecimalString.
From Stdlib Require Import Floats.SpecFloat.
Import ListNotations.

Open Scope string_scope.
Open Scope list_scope.
Open Scope Z_scope.

(** ** Cards *)

(** [class Suit(Enum)], in definition order. *)
Inductive Suit := HEARTS | DIAMONDS | CLUBS | SPADES.

(** [class Rank(Enum)], in definition order.  The enum values are the
    pairs (display, base_value); they are pairwise different, so the
    thirteen names are thirteen members. *)
Inductive Rank :=
| TWO | THREE | FOUR | FIVE | SIX | SEVEN | EIGHT | NINE | TEN
| JACK | QUEEN | KING | ACE.

(** Iterating over an Enum class yields its members in definition order. *)
Definition all_suits : list Suit := [HEARTS; DIAMONDS; CLUBS; SPADES].
Definition all_ranks : list Rank :=
  [TWO; THREE; FOUR; FIVE; SIX; SEVEN; EIGHT; NINE; TEN; JACK; QUEEN; KING; ACE].

Definition suit_value (s : Suit) : string :=
  match s with
  | HEARTS => "♥" | DIAMONDS => "♦" | CLUBS => "♣" | SPADES => "♠"
  end.

Definition display (r : Rank) : string :=
  match r with
  | TWO => "2" | THREE => "3" | FOUR => "4" | FIVE => "5" | SIX => "6"
  | SEVEN => "7" | EIGHT => "8" | NINE => "9" | TEN => "10"
  | JACK => "J" | QUEEN => "Q" | KING => "K" | ACE => "A"
  end.

Definition base_value (r : Rank) : Z :=
  match r with
  | TWO => 2 | THREE => 3 | FOUR => 4 | FIVE => 5 | SIX => 6
  | SEVEN => 7 | EIGHT => 8 | NINE => 9 | TEN => 10
  | JACK => 10 | QUEEN => 10 | KING => 10 | ACE => 11
  end.

Definition Suit_eqb (a b : Suit) : bool :=
  match a, b with
  | HEARTS, HEARTS | DIAMONDS, DIAMONDS | CLUBS, CLUBS | SPADES, SPADES => true
  | _, _ => false
  end.

Definition Rank_eqb (a b : Rank) : bool :=
  match a, b with
  | TWO, TWO | THREE, THREE | FOUR, FOUR | FIVE, FIVE | SIX, SIX
  | SEVEN, SEVEN | EIGHT, EIGHT | NINE, NINE | TEN, TEN
  | JACK, JACK | QUEEN, QUEEN | KING, KING | ACE, ACE => true
  | _, _ => false
  end.

(** [class Card]: a suit and a rank. *)
Record Card := mkCard { suit : Suit; rank : Rank }.

Definition Card_eqb (a b : Card) : bool :=
  Suit_eqb (suit a) (suit b) && Rank_eqb (rank a) (rank b).

(** [Card.get_value(allow_ace_as_one)]. *)
Definition get_value (c : Card) (allow_ace_as_one : bool) : Z :=
  if Rank_eqb (rank c) ACE && allow_ace_as_one then 1
  else base_value (rank c).

(** [Card.__str__]. *)
Definition Card_str (c : Card) : string :=
  String.append (display (rank c)) (suit_value (suit c)).

(** ** Exceptions *)

Inductive exn :=
| TypeError (msg : string)
| ValueError (msg : string)
| OverflowError (msg : string).

(** ** Deck *)

Module Deck.

(** [self.cards]. *)
Definition t := list Card.

(** [_build]: the outer loop runs over suits, the inner one over ranks,
    each step appending one card. *)
Definition _build (cards : t) : t :=
  fold_left
    (fun acc s => fold_left (fun acc' r => acc' ++ [mkCard s r]) all_ranks acc)
    all_suits cards.

(** [__init__]: start from the empty list and build. *)
Definition new : t := _build [].

(** [list.pop()]: the last element and the list without it. *)
Definition pop {A} (l : list A) : option (A * list A) :=
  match rev l with
  | [] => None
  | x :: r => Some (x, rev r)
  end.

(** [deal]: raises [ValueError] on an empty deck, pops otherwise. *)
Definition deal (cards : t) : exn + (Card * t) :=
  match pop cards with
  | None => inl (ValueError "Deck is empty")
  | Some (c, rest) => inr (c, rest)
  end.

Definition remaining (cards : t) : Z := Z.of_nat (List.length cards).

(** [k] calls of [deal] in a row: the cards dealt, in the order dealt,
    and the deck left; the first failing call ends the run. *)
Fixpoint deal_n (k : nat) (cards : t) : exn + (list Card * t) :=
  match k with
  | O => inr ([], cards)
  | S k' =>
      match deal cards with
      | inl e => inl e
      | inr (c, rest) =>
          match deal_n k' rest with
          | inl e => inl e
          | inr (cs, rest') => inr (c :: cs, rest')
          end
      end
  end.

End Deck.

(** ** Hand valuation *)

(** [sum(card.get_value(allow_ace_as_one=False) for card in cards)]. *)
Definition sum_values (cards : list Card) : Z :=
  fold_left (fun acc c => acc + get_value c false) cards 0.

(** [sum(1 for card in cards if card.rank == Rank.ACE)]. *)
Definition count_aces (cards : list Card) : nat :=
  List.length (filter (fun c => Rank_eqb (rank c) ACE) cards).

(** The loop [while total > 21 and num_aces > 0] on its three variables.
    Every iteration decrements [num_aces], which the recursion follows. *)
Fixpoint demote_loop (num_aces : nat) (total : Z) (has_ace : bool)
  : Z * nat * bool :=
  match num_aces with
  | O => (total, num_aces, has_ace)
  | S n =>
      if 21 <? total then demote_loop n (total - 10) true
      else (total, num_aces, has_ace)
  end.

Definition calculate_hand_value (cards : list Card) : Z * bool :=
  let total := sum_values cards in
  let num_aces := count_aces cards in
  let has_ace := false in
  let '(total, num_aces, has_ace) := demote_loop num_aces total has_ace in
  let has_ace := if (0 <? num_aces)%nat then true else has_ace in
  (total, has_ace).

(** ** Outcome comparator *)

(** The comparator is called with whatever the caller passes, so its
    arguments are Python values: an [int], a [bool] (a subclass of [int],
    with [True] and [False] behaving as 1 and 0), or any other object
    (a float, a string, [None], ...), kept with the text [str] gives. *)
Inductive pyval :=
| PyInt (z : Z)
| PyBool (b : bool)
| PyOther (repr : string).

(** [isinstance(v, int)]. *)
Definition isinstance_int (v : pyval) : bool :=
  match v with
  | PyInt _ | PyBool _ => true
  | PyOther _ => false
  end.

(** The integer an instance of [int] stands for in comparisons. *)
Definition int_of (v : pyval) : Z :=
  match v with
  | PyInt z => z
  | PyBool b => if b then 1 else 0
  | PyOther _ => 0
  end.

(** Decimal text of an integer, as [str] and f-strings print it. *)
Definition str_of_Z (z : Z) : string := NilZero.string_of_int (Z.to_int z).

(** What [{v}] prints inside an f-string. *)
Definition fmt (v : pyval) : string :=
  match v with
  | PyInt z => str_of_Z z
  | PyBool b => if b then "True" else "False"
  | PyOther repr => repr
  end.

Notation "a +++ b" := (String.append a b) (at level 60, right associativity).

(** [game.compare_hands]. *)
Definition compare_hands (player_total dealer_total : pyval)
  : exn + (string * string) :=
  if negb (isinstance_int player_total) || negb (isinstance_int dealer_total)
  then inl (TypeError "Totals must be integers")
  else if (int_of player_total <? 0) || (int_of dealer_total <? 0)
  then inl (ValueError "Totals must be non-negative")
  else if int_of player_total >? 21
  then inr ("bust", "Player busts with " +++ fmt player_total +++ ". Dealer wins.")
  else if int_of dealer_total >? 21
  then inr ("win", "Dealer busts with " +++ fmt dealer_total +++ ". Player wins!")
  else if int_of player_total >? int_of dealer_total
  then inr ("win", "Player wins: " +++ fmt player_total +++ " vs "
                     +++ fmt dealer_total +++ ".")
  else if int_of player_total <? int_of dealer_total
  then inr ("lose", "Dealer wins: " +++ fmt dealer_total +++ " vs "
                      +++ fmt player_total +++ ".")
  else inr ("push", "Push (tie) at " +++ fmt player_total +++ ".").

(** [window.compare_totals], the copy kept in the window module. *)
Definition compare_totals (player_total dealer_total : pyval)
  : exn + (string * string) :=
  if negb (isinstance_int player_total) || negb (isinstance_int dealer_total)
  then inl (TypeError "Totals must be integers")
  else if (int_of player_total <? 0) || (int_of dealer_total <? 0)
  then inl (ValueError "Totals must be non-negative")
  else if int_of player_total >? 21
  then inr ("bust", "Player busts with " +++ fmt player_total +++ ". Dealer wins.")
  else if int_of dealer_total >? 21
  then inr ("win", "Dealer busts with " +++ fmt dealer_total +++ ". Player wins.")
  else if int_of player_total >? int_of dealer_total
  then inr ("win", "Player wins: " +++ fmt player_total +++ " vs "
                     +++ fmt dealer_total +++ ".")
  else if int_of player_total <? int_of dealer_total
  then inr ("lose", "Dealer wins: " +++ fmt dealer_total +++ " vs "
                      +++ fmt player_total +++ ".")
  else inr ("push", "Push (tie) at " +++ fmt player_total +++ ".").

(** ** The round and session object *)

(** The attributes of a [BlackjackGame]. *)
Record BlackjackGame := mkGame {
  starting_balance : Z;
  target_balance : Z;
  mode : string;
  balance : Z;
  current_bet : Z;
  deck : Deck.t;
  player_hand : list Card;
  dealer_hand : list Card;
  game_state : string;
  result_message : string
}.

Definition set_balance (v : Z) (g : BlackjackGame) : BlackjackGame :=
  mkGame (starting_balance g) (target_balance g) (mode g) v (current_bet g)
         (deck g) (player_hand g) (dealer_hand g) (game_state g)
         (result_message g).

Definition set_current_bet (v : Z) (g : BlackjackGame) : BlackjackGame :=
  mkGame (starting_balance g) (target_balance g) (mode g) (balance g) v
         (deck g) (player_hand g) (dealer_hand g) (game_state g)
         (result_message g).

Definition set_deck (v : Deck.t) (g : BlackjackGame) : BlackjackGame :=
  mkGame (starting_balance g) (target_balance g) (mode g) (balance g)
         (current_bet g) v (player_hand g) (dealer_hand g) (game_state g)
         (result_message g).

Definition set_player_hand (v : list Card) (g : BlackjackGame) : BlackjackGame :=
  mkGame (starting_balance g) (target_balance g) (mode g) (balance g)
         (current_bet g) (deck g) v (dealer_hand g) (game_state g)
         (result_message g).

Definition set_dealer_hand (v : list Card) (g : BlackjackGame) : BlackjackGame :=
  mkGame (starting_balance g) (target_balance g) (mode g) (balance g)
         (current_bet g) (deck g) (player_hand g) v (game_state g)
         (result_message g).

Definition set_game_state (v : string) (g : BlackjackGame) : BlackjackGame :=
  mkGame (starting_balance g) (target_balance g) (mode g) (balance g)
         (current_bet g) (deck g) (player_hand g) (dealer_hand g) v
         (result_message g).

Definition set_result_message (v : string) (g : BlackjackGame) : BlackjackGame :=
  mkGame (starting_balance g) (target_balance g) (mode g) (balance g)
         (current_bet g) (deck g) (player_hand g) (dealer_hand g)
         (game_state g) v.

(** How a method call ends: it returns a value or raises, and either way
    leaves the object with the assignments made so far. *)
Inductive outcome (A : Type) :=
| Returned (v : A) (self : BlackjackGame)
| Raised (e : exn) (self : BlackjackGame).
Arguments Returned {A} v self.
Arguments Raised {A} e self.

Definition Method (A : Type) := BlackjackGame -> outcome A.

Definition ret {A} (v : A) : Method A := fun self => Returned v self.

Definition bind {A B} (m : Method A) (k : A -> Method B) : Method B :=
  fun self =>
    match m self with
    | Returned v self' => k v self'
    | Raised e self' => Raised e self'
    end.

Notation "x <- m ;; k" := (bind m (fun x => k))
  (at level 61, m at next level, right associativity).
Notation "m ;; k" := (bind m (fun _ => k))
  (at level 61, right associativity).

(** Read the object. *)
Definition get : Method BlackjackGame := fun self => Returned self self.

(** One assignment to an attribute. *)
Definition assign (f : BlackjackGame -> BlackjackGame) : Method unit :=
  fun self => Returned tt (f self).

(** A call of a function that touches no attribute and may raise. *)
Definition call {A} (r : exn + A) : Method A :=
  fun self =>
    match r with
    | inl e => Raised e self
    | inr v => Returned v self
    end.

(** [self.deck.deal()]. *)
Definition deal_card : Method Card :=
  fun self =>
    match Deck.deal (deck self) with
    | inl e => Raised e self
    | inr (c, rest) => Returned c (set_deck rest self)
    end.

(** ** The 3:2 payout, [int(self.current_bet * 1.5)] *)

(** Python floats are binary64: 53 bits of precision, exponents below 1024. *)
Definition prec : Z := 53.
Definition emax : Z := 1024.

(** [float(n)] for an [int]: the nearest binary64, ties to even; an [int]
    too large for a finite float raises. *)
Definition float_of_int (n : Z) : exn + spec_float :=
  match binary_normalize prec emax n 0 false with
  | S754_infinity _ => inl (OverflowError "int too large to convert to float")
  | f => inr f
  end.

(** The literal [1.5], that is [3 * 2^51 * 2^-52]. *)
Definition one_and_a_half : spec_float :=
  S754_finite false 6755399441055744 (-52).

(** [int(x)] for a float: the fraction is dropped (rounding toward zero);
    infinities and NaN raise. *)
Definition int_of_float (x : spec_float) : exn + Z :=
  match x with
  | S754_zero _ => inr 0
  | S754_finite s m e =>
      inr (cond_Zopp s
             match e with
             | Z0 => Zpos m
             | Zpos _ => Zpos m * 2 ^ e
             | Zneg e' => Zpos m / 2 ^ Zpos e'
             end)
  | S754_infinity _ => inl (OverflowError "cannot convert float infinity to integer")
  | S754_nan => inl (ValueError "cannot convert float NaN to integer")
  end.

(** [int(bet * 1.5)]: the [int] operand is converted to a float, the
    product is rounded to binary64, and [int] truncates it. *)
Definition int_of_times_1_5 (bet : Z) : exn + Z :=
  match float_of_int bet with
  | inl e => inl e
  | inr x => int_of_float (SFmul prec emax x one_and_a_half)
  end.

(** The dealer's [while True] loop of [player_stand].  An iteration that
    does not break pops one card, so the recursion follows the cards left
    to pop: [stack] is the deck seen from its top, [rev (deck self)]. *)
Fixpoint dealer_loop (stack : list Card) (self : BlackjackGame) : outcome unit :=
  let dealer_total := fst (calculate_hand_value (dealer_hand self)) in
  if dealer_total >=? 17 then Returned tt self
  else
    match stack with
    | [] => Raised (ValueError "Deck is empty") self
    | c :: stack' =>
        dealer_loop stack'
          (set_dealer_hand (dealer_hand self ++ [c]) (set_deck (rev stack') self))
    end.

Section Session.

(** [random.shuffle]: the order it leaves is the random source's choice,
    so the sessions are defined for any [shuffle]; what is known of it,
    that it rearranges the list it is given, is assumed where it is used. *)
Variable shuffle : Deck.t -> Deck.t.

(** [BlackjackGame.__init__]. *)
Definition __init__ (starting_balance target_balance : Z) (mode : string)
  : BlackjackGame :=
  {| starting_balance := starting_balance;
     target_balance := target_balance;
     mode := mode;
     balance := starting_balance;
     current_bet := 0;
     deck := shuffle Deck.new;
     player_hand := [];
     dealer_hand := [];
     game_state := "betting";
     result_message := "" |}.

(** [reset_for_new_hand]. *)
Definition reset_for_new_hand : Method unit :=
  assign (set_player_hand []);;
  assign (set_dealer_hand []);;
  assign (set_game_state "betting");;
  assign (set_result_message "");;
  assign (set_current_bet 0);;
  self <- get;;
  if Deck.remaining (deck self) <? 10
  then assign (set_deck (shuffle Deck.new))
  else ret tt.

End Session.

(** [place_bet]. *)
Definition place_bet (amount : Z) : Method (bool * string) :=
  self <- get;;
  if String.eqb (mode self) "practice" then
    assign (set_current_bet 0);;
    assign (set_game_state "dealing");;
    ret (true, "Practice mode: Dealing cards...")
  else if amount <=? 0 then
    ret (false, "Bet must be greater than 0.")
  else if amount >? balance self then
    ret (false, "Insufficient balance. You have " +++ str_of_Z (balance self) +++ ".")
  else if balance self <=? 0 then
    ret (false, "Game over. Reset balance to play again.")
  else
    assign (set_current_bet amount);;
    assign (set_game_state "dealing");;
    ret (true, "Bet placed: " +++ str_of_Z amount +++ ". Dealing cards...").

(** [deal_initial_hands]. *)
Definition deal_initial_hands : Method unit :=
  c1 <- deal_card;;
  c2 <- deal_card;;
  assign (set_player_hand [c1; c2]);;
  c3 <- deal_card;;
  c4 <- deal_card;;
  assign (set_dealer_hand [c3; c4]);;
  self <- get;;
  let player_total := fst (calculate_hand_value (player_hand self)) in
  let dealer_total := fst (calculate_hand_value (dealer_hand self)) in
  if (player_total =? 21) && negb (dealer_total =? 21) then
    assign (set_game_state "result");;
    assign (set_result_message "Natural Blackjack! Player wins!");;
    self <- get;;
    payout <- call (int_of_times_1_5 (current_bet self));;
    assign (fun s => set_balance (balance s + payout) s)
  else if (dealer_total =? 21) && negb (player_total =? 21) then
    assign (set_game_state "result");;
    assign (set_result_message "Dealer has Blackjack! Dealer wins.");;
    assign (fun s => set_balance (balance s - current_bet s) s)
  else if (player_total =? 21) && (dealer_total =? 21) then
    assign (set_game_state "result");;
    assign (set_result_message "Both have Blackjack! Push.")
  else
    assign (set_game_state "playing").

(** [player_hit]. *)
Definition player_hit : Method (string * string) :=
  self <- get;;
  if negb (String.eqb (game_state self) "playing") then
    ret ("invalid", "Cannot hit now.")
  else
    c <- deal_card;;
    assign (fun s => set_player_hand (player_hand s ++ [c]) s);;
    self <- get;;
    let player_total := fst (calculate_hand_value (player_hand self)) in
    if player_total >? 21 then
      assign (set_game_state "result");;
      _ <- call (compare_hands (PyInt player_total) (PyInt 0));;
      assign (set_result_message
                ("Player busts with " +++ str_of_Z player_total +++ ". Dealer wins."));;
      assign (fun s => set_balance (balance s - current_bet s) s);;
      self <- get;;
      ret ("bust", result_message self)
    else
      ret ("hit", "Hit! New total: " +++ str_of_Z player_total).

(** [player_stand]. *)
Definition player_stand : Method (string * string) :=
  self <- get;;
  if negb (String.eqb (game_state self) "playing") then
    ret ("invalid", "Cannot stand now.")
  else
    (fun s => dealer_loop (rev (deck s)) s);;
    self <- get;;
    let player_total := fst (calculate_hand_value (player_hand self)) in
    let dealer_total := fst (calculate_hand_value (dealer_hand self)) in
    rm <- call (compare_hands (PyInt player_total) (PyInt dealer_total));;
    let '(result, message) := rm in
    (if String.eqb result "win" then
       assign (fun s => set_balance (balance s + current_bet s) s)
     else if String.eqb result "lose" then
       assign (fun s => set_balance (balance s - current_bet s) s)
     else ret tt);;
    assign (set_game_state "result");;
    assign (set_result_message message);;
    self <- get;;
    (if balance self >=? target_balance self then
       assign (set_game_state "won")
     else if balance self <=? 0 then
       assign (set_game_state "out_of_money")
     else ret tt);;
    ret ("stand", message).

(** [get_player_hand_str]. *)
Definition get_player_hand_str (self : BlackjackGame) : string :=
  let cards_str := String.concat ", " (map Card_str (player_hand self)) in
  let '(total, has_ace) := calculate_hand_value (player_hand self) in
  let soft_str := if has_ace then " (soft)" else "" in
  "Player: " +++ cards_str +++ " = " +++ str_of_Z total +++ soft_str.

(** [get_dealer_hand_str]. *)
Definition get_dealer_hand_str (self : BlackjackGame) (hide_hole_card : bool)
  : string :=
  if hide_hole_card && (2 <=? List.length (dealer_hand self))%nat then
    let cards_str :=
      match dealer_hand self with
      | c :: _ => Card_str c +++ ", [hidden]"
      | [] => ""
      end in
    "Dealer: " +++ cards_str
  else
    let cards_str := String.concat ", " (map Card_str (dealer_hand self)) in
    let '(total, has_ace) := calculate_hand_value (dealer_hand self) in
    let soft_str := if has_ace then " (soft)" else "" in
    "Dealer: " +++ cards_str +++ " = " +++ str_of_Z total +++ soft_str.

(** [reset_balance_on_broke]. *)
Definition reset_balance_on_broke : Method unit :=
  assign (fun s => set_balance (starting_balance s) s);;
  assign (set_game_state "betting").

(** ** Reference notions used to state the properties *)

(** The hand counted with every ace as 1. *)
Fixpoint hard_total (cards : list Card) : Z :=
  match cards with
  | [] => 0
  | c :: rest => get_value c true + hard_total rest
  end.

(** Every total a hand can be given by counting each ace as 1 or as 11
    (the other cards at their fixed value). *)
Fixpoint valuations (cards : list Card) : list Z :=
  match cards with
  | [] => [0]
  | c :: rest =>
      if Rank_eqb (rank c) ACE
      then map (Z.add 1) (valuations rest) ++ map (Z.add 11) (valuations rest)
      else map (Z.add (base_value (rank c))) (valuations rest)
  end.

(** The hand holds an ace. *)
Definition has_ace_card (cards : list Card) : Prop :=
  exists c, In c cards /\ rank c = ACE.

(** The total of a hand, the first component of its value. *)
Definition hand_total (cards : list Card) : Z := fst (calculate_hand_value cards).

(** The two sums of [calculate_hand_value] as functions of the ranks held. *)
Definition rank_sum (ranks : list Rank) : Z :=
  fold_right (fun r acc => base_value r + acc) 0 ranks.

Definition rank_aces (ranks : list Rank) : nat :=
  List.length (filter (fun r => Rank_eqb r ACE) ranks).

(** The soft flag as the specification glosses it: raised exactly when the
    hand holds an ace and the returned total is at most 21. *)
Definition soft_iff_ace_and_no_bust (cards : list Card) : Prop :=
  snd (calculate_hand_value cards) = true
  <-> has_ace_card cards /\ fst (calculate_hand_value cards) <= 21.

(** The total as the specification words it: the least total that does not
    exceed 21 when some valuation does not, the all-aces-as-1 sum otherwise. *)
Definition total_is_minimal_non_bust (cards : list Card) : Prop :=
  let total := fst (calculate_hand_value cards) in
  ((exists t, In t (valuations cards) /\ t <= 21) ->
   In total (valuations cards) /\ total <= 21
   /\ forall t, In t (valuations cards) -> t <= 21 -> total <= t)
  /\ ((forall t, In t (valuations cards) -> 21 < t) -> total = hard_total cards).

(** A boolean check that no card occurs twice. *)
Fixpoint nodupb (cards : list Card) : bool :=
  match cards with
  | [] => true
  | c :: rest => negb (existsb (Card_eqb c) rest) && nodupb rest
  end.

(** A total the comparator refuses: not an integer, or negative. *)
Definition invalid_total (v : pyval) : Prop :=
  isinstance_int v = false \/ int_of v < 0.

(** The result category of a successful comparison. *)
Definition category {A B} (r : exn + (A * B)) : option A :=
  match r with
  | inl _ => None
  | inr (a, _) => Some a
  end.

(** ** Sample sessions *)

Definition state_after {A} (o : outcome A) : BlackjackGame :=
  match o with
  | Returned _ self => self
  | Raised _ self => self
  end.

(** A classic session whose shuffle left the new deck as built, after a
    bet of 100: the player is about to be dealt the ace and king of
    spades, the dealer the queen and jack. *)
Definition classic_bet_100 : BlackjackGame :=
  Eval vm_compute in
    state_after (place_bet 100 (__init__ (fun cards => cards) 2000 25000 "classic")).

(** The same session with a target of 2100 chips. *)
Definition short_target_bet_100 : BlackjackGame :=
  Eval vm_compute in
    state_after (place_bet 100 (__init__ (fun cards => cards) 2000 2100 "classic")).

(** A classic session whose shuffle reversed the new deck, after a bet of
    100 and the initial deal: the player holds the two and three of
    hearts, the dealer the four and five. *)
Definition classic_playing : BlackjackGame :=
  Eval vm_compute in
    state_after ((place_bet 100;; deal_initial_hands)
                   (__init__ (@rev Card) 2000 25000 "classic")).

(** A session staking its whole balance of 100 on the reversed deck,
    after the deal and two hits: the player holds 2, 3, 6 and 7 of hearts
    (18) against the dealer's 4 and 5, and the eight of hearts is on top
    of the deck. *)
Definition all_in_playing : BlackjackGame :=
  Eval vm_compute in
    state_after ((place_bet 100;; deal_initial_hands;; player_hit;; player_hit)
                   (__init__ (@rev Card) 100 25000 "classic")).

(** The session above after the next hit, a bust that takes the whole
    balance, and [reset_for_new_hand]: the betting phase with no chips. *)
Definition broke_after_bust : BlackjackGame :=
  Eval vm_compute in
    state_after ((player_hit;; reset_for_new_hand (@rev Card)) all_in_playing).

(** The state the second test of [test_blackjack.py] builds by assigning
    to the attributes of [BlackjackGame(starting_balance=50,
    target_balance=25000)] before it calls [player_stand]. *)
Definition test_loss_state : BlackjackGame :=
  Eval vm_compute in
    set_balance (-100)
      (set_result_message "Test loss"
         (set_game_state "result"
            (set_balance 0 (__init__ (@rev Card) 50 25000 "classic")))).

(** A round in which the player hit a nine and a five to an ace. *)
Definition hard_fifteen : BlackjackGame :=
  {| starting_balance := 2000; target_balance := 25000; mode := "classic";
     balance := 2000; current_bet := 100;
     deck := [mkCard CLUBS TWO; mkCard SPADES SEVEN];
     player_hand := [mkCard SPADES ACE; mkCard HEARTS NINE; mkCard CLUBS FIVE];
     dealer_hand := [mkCard HEARTS FOUR; mkCard HEARTS FIVE];
     game_state := "playing"; result_message := "" |}.

(** One round played without a hit: a bet of 100, the deal, a stand and
    [reset_for_new_hand] with the given shuffle. *)
Definition play_round (shuffle : Deck.t -> Deck.t) (self : BlackjackGame)
  : BlackjackGame :=
  state_after
    (reset_for_new_hand shuffle
       (state_after
          (player_stand
             (state_after (deal_initial_hands (state_after (place_bet 100 self))))))).

(** A session that reaches its second deck: the constructor's shuffle
    reversed the new deck, nine rounds used 45 of its cards, and the ninth
    [reset_for_new_hand], finding 7 cards left, took a new deck whose
    shuffle left it as built. *)
Definition shoe_session (starting_balance target_balance : Z) (mode : string)
  : BlackjackGame :=
  play_round (fun cards => cards)
    (Nat.iter 8 (play_round (@rev Card))
       (__init__ (@rev Card) starting_balance target_balance mode)).

Definition second_shoe : BlackjackGame := shoe_session 2000 25000 "classic".

(** The practice session of [test_integration.py],
    [BlackjackGame(0, 0, "practice")], on its second deck, after one more round and the deal of the next: the player holds
    the ten and nine of spades against the dealer's eight and seven. *)
Definition practice_second_shoe : BlackjackGame :=
  state_after
    (deal_initial_hands
       (state_after
          (place_bet 0 (play_round (fun cards => cards)
                          (shoe_session 0 0 "practice"))))).

(** ** Sequences of calls *)

(** The cards a game holds: the deck and the two hands. *)
Definition cards_in_play (self : BlackjackGame) : list Card :=
  deck self ++ player_hand self ++ dealer_hand self.

(** What [random.shuffle] can do to a list of cards: return them in some
    order.  Every call draws its own order, so every shuffle of a session
    gets a function of its own. *)
Definition is_shuffle (shuffle : Deck.t -> Deck.t) : Prop :=
  forall cards, Permutation (shuffle cards) cards.

(** The objects a caller can get by constructing a game and calling its
    methods, in any order and with any arguments; a call that raises
    leaves the object as it was at the raise.  The constructor and every
    [reset_for_new_hand] shuffle in an order of their own. *)
Inductive reachable : BlackjackGame -> Prop :=
| reach_init (shuffle : Deck.t -> Deck.t) (starting_balance target_balance : Z)
             (mode : string) :
    is_shuffle shuffle ->
    reachable (__init__ shuffle starting_balance target_balance mode)
| reach_place_bet (amount : Z) (self : BlackjackGame) :
    reachable self -> reachable (state_after (place_bet amount self))
| reach_deal (self : BlackjackGame) :
    reachable self -> reachable (state_after (deal_initial_hands self))
| reach_hit (self : BlackjackGame) :
    reachable self -> reachable (state_after (player_hit self))
| reach_stand (self : BlackjackGame) :
    reachable self -> reachable (state_after (player_stand self))
| reach_reset (shuffle : Deck.t -> Deck.t) (self : BlackjackGame) :
    is_shuffle shuffle ->
    reachable self -> reachable (state_after (reset_for_new_hand shuffle self))
| reach_broke (self : BlackjackGame) :
    reachable self -> reachable (state_after (reset_balance_on_broke self)).

(** The objects of a caller that follows the phases, as the module's own
    demo and tests do: a bet in the betting phase, the deal in the dealing
    phase that an accepted bet opens, hit and stand at any time (they
    check the phase themselves), [reset_for_new_hand] after a result and
    [reset_balance_on_broke] when out of money.  Here too every shuffle
    has an order of its own. *)
Inductive in_phase (starting_balance target_balance : Z) (mode : string)
  : BlackjackGame -> Prop :=
| phase_init (shuffle : Deck.t -> Deck.t) :
    is_shuffle shuffle ->
    in_phase starting_balance target_balance mode
      (__init__ shuffle starting_balance target_balance mode)
| phase_place_bet (amount : Z) (self : BlackjackGame) :
    in_phase starting_balance target_balance mode self ->
    game_state self = "betting" ->
    in_phase starting_balance target_balance mode
      (state_after (place_bet amount self))
| phase_deal (self : BlackjackGame) :
    in_phase starting_balance target_balance mode self ->
    game_state self = "dealing" ->
    in_phase starting_balance target_balance mode
      (state_after (deal_initial_hands self))
| phase_hit (self : BlackjackGame) :
    in_phase starting_balance target_balance mode self ->
    in_phase starting_balance target_balance mode (state_after (player_hit self))
| phase_stand (self : BlackjackGame) :
    in_phase starting_balance target_balance mode self ->
    in_phase starting_balance target_balance mode (state_after (player_stand self))
| phase_reset (shuffle : Deck.t -> Deck.t) (self : BlackjackGame) :
    is_shuffle shuffle ->
    in_phase starting_balance target_balance mode self ->
    game_state self = "result" ->
    in_phase starting_balance target_balance mode
      (state_after (reset_for_new_hand shuffle self))
| phase_broke (self : BlackjackGame) :
    in_phase starting_balance target_balance mode self ->
    game_state self = "out_of_money" ->
    in_phase starting_balance target_balance mode
      (state_after (reset_balance_on_broke self)).

Section Calls.

Variable shuffle : Deck.t -> Deck.t.

(** One call of a caller that follows the phases, on an object in any
    state, and a sequence of such calls. *)
Inductive phase_call : BlackjackGame -> BlackjackGame -> Prop :=
| call_place_bet (amount : Z) (self : BlackjackGame) :
    game_state self = "betting" ->
    phase_call self (state_after (place_bet amount self))
| call_deal (self : BlackjackGame) :
    game_state self = "dealing" ->
    phase_call self (state_after (deal_initial_hands self))
| call_hit (self : BlackjackGame) :
    phase_call self (state_after (player_hit self))
| call_stand (self : BlackjackGame) :
    phase_call self (state_after (player_stand self))
| call_reset (self : BlackjackGame) :
    game_state self = "result" ->
    phase_call self (state_after (reset_for_new_hand shuffle self))
| call_broke (self : BlackjackGame) :
    game_state self = "out_of_money" ->
    phase_call self (state_after (reset_balance_on_broke self)).

Inductive phase_calls : BlackjackGame -> BlackjackGame -> Prop :=
| calls_none (self : BlackjackGame) : phase_calls self self
| calls_then (self mid self' : BlackjackGame) :
    phase_calls self mid -> phase_call mid self' -> phase_calls self self'.

End Calls.

(** ** Facts about enumerations and lists *)

Lemma Rank_eqb_eq (a b : Rank) : Rank_eqb a b = true <-> a = b.
Proof. destruct a, b; simpl; split; intro H; try reflexivity; discriminate H. Qed.

Lemma Suit_eqb_eq (a b : Suit) : Suit_eqb a b = true <-> a = b.
Proof. destruct a, b; simpl; split; intro H; try reflexivity; discriminate H. Qed.

Lemma Card_eqb_eq (a b : Card) : Card_eqb a b = true <-> a = b.
Proof.
  destruct a as [s1 r1], b as [s2 r2]; unfold Card_eqb; simpl.
  rewrite andb_true_iff, Suit_eqb_eq, Rank_eqb_eq.
  split; [intros [-> ->]; reflexivity | intros [= -> ->]; auto].
Qed.

Lemma pop_nil {A} : Deck.pop (@nil A) = None.
Proof. reflexivity. Qed.

Lemma pop_snoc {A} (l : list A) (x : A) : Deck.pop (l ++ [x]) = Some (x, l).
Proof. unfold Deck.pop. rewrite rev_app_distr. simpl. now rewrite rev_involutive. Qed.

Lemma pop_rev_cons {A} (x : A) (stack : list A) :
  Deck.pop (rev (x :: stack)) = Some (x, rev stack).
Proof. simpl. apply pop_snoc. Qed.

Lemma snoc_cases {A} (l : list A) : l = [] \/ exists l' x, l = l' ++ [x].
Proof.
  destruct (rev l) as [|x r] eqn:E.
  - left. apply (f_equal (@rev A)) in E. now rewrite rev_involutive in E.
  - right. exists (rev r), x. apply (f_equal (@rev A)) in E.
    now rewrite rev_involutive in E.
Qed.

Lemma deal_nil : Deck.deal [] = inl (ValueError "Deck is empty").
Proof. reflexivity. Qed.

Lemma deal_snoc (cards : Deck.t) (c : Card) :
  Deck.deal (cards ++ [c]) = inr (c, cards).
Proof. unfold Deck.deal. now rewrite pop_snoc. Qed.

(** ** Facts about hand valuation *)

Lemma fold_left_sum_acc (cards : list Card) (a : Z) :
  fold_left (fun acc c => acc + get_value c false) cards a
  = a + fold_left (fun acc c => acc + get_value c false) cards 0.
Proof.
  revert a. induction cards as [|c rest IH]; intro a; simpl.
  - lia.
  - rewrite (IH (a + _)), (IH (get_value c false)). lia.
Qed.

Lemma sum_values_cons (c : Card) (rest : list Card) :
  sum_values (c :: rest) = get_value c false + sum_values rest.
Proof. unfold sum_values. simpl. now rewrite fold_left_sum_acc. Qed.

Lemma count_aces_cons (c : Card) (rest : list Card) :
  count_aces (c :: rest)
  = if Rank_eqb (rank c) ACE then S (count_aces rest) else count_aces rest.
Proof. unfold count_aces. simpl. now destruct (Rank_eqb (rank c) ACE). Qed.

Lemma get_value_ace_gap (c : Card) :
  get_value c false
  = get_value c true + (if Rank_eqb (rank c) ACE then 10 else 0).
Proof. destruct c as [s []]; reflexivity. Qed.

(** The first sum of [calculate_hand_value] is the hard total plus ten per ace. *)
Lemma sum_values_hard_total (cards : list Card) :
  sum_values cards = hard_total cards + 10 * Z.of_nat (count_aces cards).
Proof.
  induction cards as [|c rest IH].
  - reflexivity.
  - rewrite sum_values_cons, count_aces_cons, get_value_ace_gap, IH. simpl hard_total.
    destruct (Rank_eqb (rank c) ACE); lia.
Qed.

Lemma get_value_true_pos (c : Card) : 1 <= get_value c true.
Proof. destruct c as [s []]; simpl; unfold get_value; simpl; lia. Qed.

Lemma hard_total_length (cards : list Card) :
  Z.of_nat (List.length cards) <= hard_total cards.
Proof.
  induction cards as [|c rest IH]; simpl hard_total; simpl List.length.
  - lia.
  - pose proof (get_value_true_pos c). lia.
Qed.

Lemma count_aces_zero_iff (cards : list Card) :
  count_aces cards = O <-> forall c, In c cards -> rank c <> ACE.
Proof.
  induction cards as [|c rest IH].
  - split; [intros _ c [] | reflexivity].
  - rewrite count_aces_cons. destruct (Rank_eqb (rank c) ACE) eqn:E.
    + split; [discriminate|]. intro H. exfalso.
      apply (H c); [now left | now apply Rank_eqb_eq].
    + rewrite IH. split.
      * intros H c' [<- | Hin]; [|now apply H].
        intro Hr. apply Rank_eqb_eq in Hr. congruence.
      * intros H c' Hin. apply H. now right.
Qed.

Lemma count_aces_pos_iff (cards : list Card) :
  (0 < count_aces cards)%nat <-> has_ace_card cards.
Proof.
  unfold has_ace_card. induction cards as [|c rest IH].
  - split; [inversion 1 | intros (c & [] & _)].
  - rewrite count_aces_cons. destruct (Rank_eqb (rank c) ACE) eqn:E.
    + split; [|lia]. intros _. exists c. split; [now left | now apply Rank_eqb_eq].
    + rewrite IH. split.
      * intros (c' & Hin & Hr). exists c'. split; [now right | assumption].
      * intros (c' & [<- | Hin] & Hr).
        -- apply Rank_eqb_eq in Hr. congruence.
        -- now exists c'.
Qed.

(** What the demotion loop does: it demotes [k] aces, stops as soon as the
    total is at most 21 or no ace is left, and raises the flag when it
    demoted at least one. *)
Lemma demote_loop_spec (num_aces : nat) (total : Z) (has_ace : bool) :
  exists k : nat,
    (k <= num_aces)%nat /\
    demote_loop num_aces total has_ace
    = (total - 10 * Z.of_nat k, (num_aces - k)%nat, has_ace || (0 <? k)%nat) /\
    (total - 10 * Z.of_nat k <= 21 \/ k = num_aces) /\
    ((0 < k)%nat -> 21 < total - 10 * Z.of_nat k + 10).
Proof.
  revert total has_ace.
  induction num_aces as [|n IH]; intros total has_ace.
  - exists O. cbn [demote_loop Z.of_nat Nat.sub Nat.ltb Nat.leb].
    rewrite orb_false_r, Z.mul_0_r, Z.sub_0_r.
    split; [lia|]. split; [reflexivity|]. split; [now right | lia].
  - cbn [demote_loop]. destruct (21 <? total) eqn:E.
    + apply Z.ltb_lt in E.
      destruct (IH (total - 10) true) as (k & Hk & Heq & Hstop & Hprev).
      exists (S k). rewrite Heq, orb_true_r.
      replace (total - 10 - 10 * Z.of_nat k)
        with (total - 10 * Z.of_nat (S k)) in * by lia.
      split; [lia|]. split; [reflexivity|]. split; [lia|].
      intros _. destruct k as [|k']; [simpl Z.of_nat; lia|].
      assert (0 < S k')%nat as Hpos by lia. specialize (Hprev Hpos). lia.
    + apply Z.ltb_ge in E. exists O.
      cbn [Z.of_nat Nat.ltb Nat.leb]. rewrite orb_false_r, Z.mul_0_r, Z.sub_0_r, Nat.sub_0_r.
      split; [lia|]. split; [reflexivity|]. split; [now left | lia].
Qed.

(** The value returned, in closed form: [k] aces demoted. *)
Lemma calculate_hand_value_spec (cards : list Card) :
  exists k : nat,
    (k <= count_aces cards)%nat /\
    calculate_hand_value cards
    = (hard_total cards + 10 * Z.of_nat (count_aces cards - k),
       (0 <? count_aces cards)%nat) /\
    (hard_total cards + 10 * Z.of_nat (count_aces cards - k) <= 21
     \/ k = count_aces cards) /\
    ((0 < k)%nat -> 21 < hard_total cards + 10 * Z.of_nat (count_aces cards - k) + 10).
Proof.
  unfold calculate_hand_value.
  destruct (demote_loop_spec (count_aces cards) (sum_values cards) false)
    as (k & Hk & Heq & Hstop & Hprev).
  exists k. rewrite Heq. rewrite sum_values_hard_total in *.
  replace (hard_total cards + 10 * Z.of_nat (count_aces cards)
           - 10 * Z.of_nat k)
    with (hard_total cards + 10 * Z.of_nat (count_aces cards - k)) in * by lia.
  repeat split; auto.
  f_equal. simpl orb.
  destruct (count_aces cards) as [|n]; destruct k as [|k']; try reflexivity; try lia.
  simpl. destruct (n - k')%nat; reflexivity.
Qed.

(** The flag returned is raised exactly for the hands that hold an ace:
    the loop raises it when it demotes one, the test after the loop when
    one is left at 11. *)
Lemma calculate_hand_value_has_ace (cards : list Card) :
  snd (calculate_hand_value cards) = (0 <? count_aces cards)%nat.
Proof.
  destruct (calculate_hand_value_spec cards) as (k & _ & -> & _). reflexivity.
Qed.

Lemma calculate_hand_value_total_bounds (cards : list Card) :
  hard_total cards <= fst (calculate_hand_value cards)
  /\ fst (calculate_hand_value cards) <= sum_values cards.
Proof.
  destruct (calculate_hand_value_spec cards) as (k & Hk & -> & _).
  rewrite sum_values_hard_total. cbn [fst]. lia.
Qed.

Lemma calculate_hand_value_nonneg (cards : list Card) :
  0 <= fst (calculate_hand_value cards).
Proof.
  pose proof (calculate_hand_value_total_bounds cards).
  pose proof (hard_total_length cards). lia.
Qed.

(** The totals of [valuations] are the hard total plus ten for each ace
    counted as 11. *)
Lemma valuations_spec (cards : list Card) (t : Z) :
  In t (valuations cards)
  <-> exists j : nat,
        (j <= count_aces cards)%nat /\ t = hard_total cards + 10 * Z.of_nat j.
Proof.
  revert t. induction cards as [|c rest IH]; intro t.
  - simpl. split.
    + intros [<- | []]. exists O. split; [lia | reflexivity].
    + intros (j & Hj & ->). left. assert (j = O) as -> by (unfold count_aces in Hj; simpl in Hj; lia).
      reflexivity.
  - cbn [valuations hard_total]. rewrite count_aces_cons.
    unfold get_value. rewrite andb_true_r.
    destruct (Rank_eqb (rank c) ACE) eqn:E.
    + rewrite in_app_iff, !in_map_iff. split.
      * intros [(v & <- & Hv) | (v & <- & Hv)]; apply IH in Hv as (j & Hj & ->).
        -- exists j. split; lia.
        -- exists (S j). split; lia.
      * intros (j & Hj & ->). destruct j as [|j'].
        -- left. exists (hard_total rest). split; [lia|].
           apply IH. exists O. split; lia.
        -- right. exists (hard_total rest + 10 * Z.of_nat j'). split; [lia|].
           apply IH. exists j'. split; lia.
    + rewrite in_map_iff. split.
      * intros (v & <- & Hv). apply IH in Hv as (j & Hj & ->).
        exists j. split; lia.
      * intros (j & Hj & ->). exists (hard_total rest + 10 * Z.of_nat j).
        split; [lia|]. apply IH. exists j. split; lia.
Qed.

Lemma sum_values_rank_sum (cards : list Card) :
  sum_values cards = rank_sum (map rank cards).
Proof.
  induction cards as [|c rest IH]; [reflexivity|].
  rewrite sum_values_cons, IH. simpl. unfold get_value.
  now rewrite andb_false_r.
Qed.

Lemma count_aces_rank_aces (cards : list Card) :
  count_aces cards = rank_aces (map rank cards).
Proof.
  induction cards as [|c rest IH]; [reflexivity|].
  rewrite count_aces_cons, IH. unfold rank_aces. simpl.
  now destruct (Rank_eqb (rank c) ACE).
Qed.

Lemma rank_sum_perm (a b : list Rank) :
  Permutation a b -> rank_sum a = rank_sum b.
Proof. induction 1; simpl in *; lia. Qed.

Lemma rank_aces_perm (a b : list Rank) :
  Permutation a b -> rank_aces a = rank_aces b.
Proof.
  intro H. unfold rank_aces. apply Permutation_length.
  induction H; simpl.
  - constructor.
  - destruct (Rank_eqb x ACE); [now constructor | assumption].
  - destruct (Rank_eqb x ACE), (Rank_eqb y ACE);
      try apply Permutation_refl; apply perm_swap.
  - eapply Permutation_trans; eassumption.
Qed.

(** The value of a hand depends on the ranks held, not on their order or
    on the suits. *)
Lemma calculate_hand_value_rank_perm (a b : list Card) :
  Permutation (map rank a) (map rank b) ->
  calculate_hand_value a = calculate_hand_value b.
Proof.
  intro H. unfold calculate_hand_value.
  rewrite !sum_values_rank_sum, !count_aces_rank_aces.
  now rewrite (rank_sum_perm _ _ H), (rank_aces_perm _ _ H).
Qed.

(** ** Claims about hand valuation *)

(** C1: the code raises the flag for every hand that holds an ace and for
    no other.  So the claim holds of every hand except those that hold an
    ace and are bust, and fails on each of these: there the total is the
    sum with every ace counted as 1, no ace counts as 11, and the flag is
    raised all the same, by the assignment inside the demotion loop, the
    only one that such a hand reaches with an ace left to count. *)
Theorem soft_flag_raised_for_every_ace (cards : list Card) :
  (snd (calculate_hand_value cards) = true <-> has_ace_card cards)
  /\ (soft_iff_ace_and_no_bust cards
      <-> ~ (has_ace_card cards /\ 21 < fst (calculate_hand_value cards)))
  /\ (has_ace_card cards /\ 21 < fst (calculate_hand_value cards) ->
      calculate_hand_value cards = (hard_total cards, true)
      /\ demote_loop (count_aces cards) (sum_values cards) false
         = (hard_total cards, 0%nat, true)).
Proof.
  assert (snd (calculate_hand_value cards) = true <-> has_ace_card cards) as Hflag.
  { rewrite calculate_hand_value_has_ace, Nat.ltb_lt. apply count_aces_pos_iff. }
  split; [exact Hflag|]. split.
  - unfold soft_iff_ace_and_no_bust. rewrite Hflag. split.
    + intros [H _] [Hace Hbust]. destruct (H Hace) as [_ Hle]. lia.
    + intro Hno. split; [|tauto].
      intro Hace. split; [exact Hace|].
      destruct (Z.le_gt_cases (fst (calculate_hand_value cards)) 21); [assumption|].
      exfalso. apply Hno. split; [assumption | lia].
  - intros [Hace Hbust].
    apply count_aces_pos_iff in Hace.
    destruct (demote_loop_spec (count_aces cards) (sum_values cards) false)
      as (k & Hk & Heq & Hstop & _).
    assert (fst (calculate_hand_value cards) = sum_values cards - 10 * Z.of_nat k)
      as Htotal by (unfold calculate_hand_value; now rewrite Heq).
    rewrite Htotal in Hbust.
    destruct Hstop as [Hle | ->]; [lia|].
    assert (demote_loop (count_aces cards) (sum_values cards) false
            = (hard_total cards, 0%nat, true)) as Hloop.
    { rewrite Heq, Nat.sub_diag. f_equal; [f_equal|].
      - rewrite sum_values_hard_total. lia.
      - destruct (Nat.ltb_spec 0 (count_aces cards)); [reflexivity | lia]. }
    split; [|exact Hloop].
    unfold calculate_hand_value. now rewrite Hloop.
Qed.

Lemma soft_flag_raised_for_every_ace_witness :
  calculate_hand_value
    [mkCard HEARTS KING; mkCard CLUBS FIVE; mkCard SPADES ACE; mkCard DIAMONDS KING]
  = (26, true)
  /\ ~ soft_iff_ace_and_no_bust
       [mkCard HEARTS KING; mkCard CLUBS FIVE; mkCard SPADES ACE; mkCard DIAMONDS KING].
Proof.
  set (hand := [mkCard HEARTS KING; mkCard CLUBS FIVE; mkCard SPADES ACE;
                mkCard DIAMONDS KING]).
  destruct (soft_flag_raised_for_every_ace hand) as (_ & Hclaim & Hbust).
  assert (has_ace_card hand /\ 21 < fst (calculate_hand_value hand)) as H.
  { split; [|vm_compute; reflexivity].
    exists (mkCard SPADES ACE). split; [simpl; auto | reflexivity]. }
  split.
  - exact (proj1 (Hbust H)).
  - intro Hc. exact (proj1 Hclaim Hc H).
Defined.

(** C2: an ace, a nine and a five, in any order and of any suits, are
    valued (15, True): the ace is demoted and the flag is raised all the
    same, where the claim has (15, False). *)
Theorem ace_nine_five_value (cards : list Card) :
  Permutation (map rank cards) [ACE; NINE; FIVE] ->
  calculate_hand_value cards = (15, true).
Proof.
  intro H.
  rewrite (calculate_hand_value_rank_perm cards
             [mkCard HEARTS ACE; mkCard HEARTS NINE; mkCard HEARTS FIVE] H).
  reflexivity.
Qed.

Lemma ace_nine_five_value_witness :
  calculate_hand_value [mkCard CLUBS NINE; mkCard SPADES ACE; mkCard HEARTS FIVE]
  = (15, true).
Proof.
  apply ace_nine_five_value. simpl.
  apply perm_swap.
Defined.

(** The flag reaches the player: the hand above is shown as a soft 15. *)
Lemma hard_fifteen_shown_soft :
  get_player_hand_str hard_fifteen = "Player: A♠, 9♥, 5♣ = 15 (soft)".
Proof. reflexivity. Qed.

(** C3, the claim as stated fails: an ace and a five can be counted 6 or
    16, both within 21, and the function returns 16, not the least. *)
Lemma total_not_minimal :
  valuations [mkCard SPADES ACE; mkCard HEARTS FIVE] = [6; 16]
  /\ calculate_hand_value [mkCard SPADES ACE; mkCard HEARTS FIVE] = (16, true)
  /\ ~ total_is_minimal_non_bust [mkCard SPADES ACE; mkCard HEARTS FIVE].
Proof.
  split; [reflexivity|]. split; [reflexivity|].
  unfold total_is_minimal_non_bust. intros [H _].
  destruct H as (_ & _ & Hmin).
  - exists 6. split; [now left | lia].
  - specialize (Hmin 6). cbn in Hmin. 
    assert (16 <= 6) by (apply Hmin; [now left | lia]). lia.
Qed.

(** C3, amended: the total returned is one of the hand's valuations; when
    some valuation does not exceed 21 it is the greatest such valuation;
    when every valuation exceeds 21 it is the sum with every ace counted
    as 1.  Two aces and a nine, in any order, are valued (21, True). *)
Theorem total_is_best_non_bust (cards : list Card) :
  let total := fst (calculate_hand_value cards) in
  In total (valuations cards)
  /\ ((exists t, In t (valuations cards) /\ t <= 21) ->
      total <= 21
      /\ forall t, In t (valuations cards) -> t <= 21 -> t <= total)
  /\ ((forall t, In t (valuations cards) -> 21 < t) -> total = hard_total cards)
  /\ (Permutation (map rank cards) [ACE; ACE; NINE] ->
      calculate_hand_value cards = (21, true)).
Proof.
  cbv zeta.
  destruct (calculate_hand_value_spec cards) as (k & Hk & Heq & Hstop & Hprev).
  rewrite Heq. cbn [fst]. split; [|split; [|split]].
  - apply valuations_spec. exists (count_aces cards - k)%nat. split; [lia | reflexivity].
  - intros (t & Ht & Hle). apply valuations_spec in Ht as (j & Hj & ->).
    split.
    + destruct Hstop as [H | ->]; [assumption | lia].
    + intros t Ht Hle'. apply valuations_spec in Ht as (j' & Hj' & ->).
      destruct k as [|k']; [lia|].
      assert (0 < S k')%nat as Hpos by lia. specialize (Hprev Hpos). lia.
  - intro Hall.
    destruct Hstop as [H | ->].
    + exfalso.
      assert (21 < hard_total cards + 10 * Z.of_nat (count_aces cards - k)); [|lia].
      apply Hall, valuations_spec.
      exists (count_aces cards - k)%nat. split; [lia | reflexivity].
    + rewrite Nat.sub_diag. simpl. lia.
  - intro H. rewrite <- Heq.
    rewrite (calculate_hand_value_rank_perm cards
               [mkCard HEARTS ACE; mkCard HEARTS ACE; mkCard HEARTS NINE] H).
    reflexivity.
Qed.

Lemma total_is_best_non_bust_witness :
  calculate_hand_value [mkCard HEARTS ACE; mkCard SPADES NINE; mkCard CLUBS ACE]
  = (21, true)
  /\ fst (calculate_hand_value [mkCard SPADES ACE; mkCard HEARTS FIVE]) <= 21
  /\ fst (calculate_hand_value
            [mkCard HEARTS KING; mkCard CLUBS FIVE; mkCard SPADES ACE;
             mkCard DIAMONDS KING])
     = hard_total [mkCard HEARTS KING; mkCard CLUBS FIVE; mkCard SPADES ACE;
                   mkCard DIAMONDS KING].
Proof.
  split; [|split].
  - apply (total_is_best_non_bust
             [mkCard HEARTS ACE; mkCard SPADES NINE; mkCard CLUBS ACE]).
    simpl. apply perm_skip, perm_swap.
  - apply (total_is_best_non_bust [mkCard SPADES ACE; mkCard HEARTS FIVE]).
    exists 6. split; [now left | lia].
  - apply (total_is_best_non_bust
             [mkCard HEARTS KING; mkCard CLUBS FIVE; mkCard SPADES ACE;
              mkCard DIAMONDS KING]).
    intros t Ht. vm_compute in Ht. destruct Ht as [<- | [<- | []]]; lia.
Defined.

(** ** Claims about the deck *)

Lemma nodupb_NoDup (cards : list Card) : nodupb cards = true -> NoDup cards.
Proof.
  induction cards as [|c rest IH]; simpl; intro H.
  - constructor.
  - apply andb_true_iff in H as [Hc Hrest]. constructor; [|auto].
    intro Hin. apply negb_true_iff in Hc.
    assert (existsb (Card_eqb c) rest = true) as Hex; [|congruence].
    apply existsb_exists. exists c. split; [assumption | now apply Card_eqb_eq].
Qed.

Lemma new_deck_length : List.length Deck.new = 52%nat.
Proof. reflexivity. Qed.

Lemma new_deck_NoDup : NoDup Deck.new.
Proof. apply nodupb_NoDup. vm_compute. reflexivity. Qed.

Lemma new_deck_complete (c : Card) : In c Deck.new.
Proof. destruct c as [[] []]; vm_compute; tauto. Qed.

(** A successful [deal] is exactly the removal of the last card. *)
Lemma deal_inr_iff (cards rest : Deck.t) (c : Card) :
  Deck.deal cards = inr (c, rest) <-> cards = rest ++ [c].
Proof.
  split.
  - destruct (snoc_cases cards) as [-> | (l & x & ->)].
    + rewrite deal_nil. discriminate.
    + rewrite deal_snoc. now intros [= -> ->].
  - intros ->. apply deal_snoc.
Qed.

Lemma deal_inl_iff (cards : Deck.t) (e : exn) :
  Deck.deal cards = inl e <-> cards = [] /\ e = ValueError "Deck is empty".
Proof.
  split.
  - destruct (snoc_cases cards) as [-> | (l & x & ->)].
    + rewrite deal_nil. now intros [= <-].
    + rewrite deal_snoc. discriminate.
  - intros [-> ->]. apply deal_nil.
Qed.

(** [k] successful deals take the last [k] cards, the last one first. *)
Lemma deal_n_inr (k : nat) :
  forall (cards rest : Deck.t) (dealt : list Card),
    Deck.deal_n k cards = inr (dealt, rest) ->
    cards = rest ++ rev dealt /\ List.length dealt = k.
Proof.
  induction k as [|k IH]; intros cards rest dealt; simpl.
  - intros [= <- <-]. simpl. now rewrite app_nil_r.
  - destruct (Deck.deal cards) as [e | [c cards']] eqn:Hd; [discriminate|].
    destruct (Deck.deal_n k cards') as [e | [cs rest']] eqn:Hn; [discriminate|].
    intros [= <- <-]. apply deal_inr_iff in Hd as ->.
    destruct (IH _ _ _ Hn) as [-> <-]. simpl.
    now rewrite <- !app_assoc.
Qed.

Lemma deal_n_enough (k : nat) :
  forall cards : Deck.t,
    (k <= List.length cards)%nat ->
    exists dealt rest, Deck.deal_n k cards = inr (dealt, rest).
Proof.
  induction k as [|k IH]; intros cards Hk; simpl.
  - now exists [], cards.
  - destruct (snoc_cases cards) as [-> | (l & x & ->)]; [simpl in Hk; lia|].
    rewrite deal_snoc. rewrite length_app in Hk. simpl in Hk.
    destruct (IH l) as (dealt & rest & ->); [lia|].
    now exists (x :: dealt), rest.
Qed.

(** C8: a new deck holds 52 cards, no card twice and every (suit, rank)
    pair; a successful deal removes and returns the last card; after [k]
    successful deals from a deck that is the new one in any order (as a
    shuffle leaves it) [52 - k] cards remain, the cards dealt are the last
    [k] in reverse, the deals succeed as long as [k <= 52], and neither
    the cards left nor those dealt repeat a card; a deal from the empty
    deck raises instead of returning a card. *)
Theorem deck_invariant :
  Deck.remaining Deck.new = 52
  /\ NoDup Deck.new
  /\ (forall c, In c Deck.new)
  /\ (forall cards rest c, Deck.deal cards = inr (c, rest) <-> cards = rest ++ [c])
  /\ (forall cards k,
        Permutation cards Deck.new ->
        ((k <= 52)%nat -> exists dealt rest, Deck.deal_n k cards = inr (dealt, rest))
        /\ forall dealt rest,
             Deck.deal_n k cards = inr (dealt, rest) ->
             cards = rest ++ rev dealt
             /\ List.length dealt = k
             /\ Deck.remaining rest = 52 - Z.of_nat k
             /\ NoDup (rest ++ dealt))
  /\ Deck.deal [] = inl (ValueError "Deck is empty")
  /\ (forall cards e, Deck.deal cards = inl e <-> cards = [] /\ e = ValueError "Deck is empty").
Proof.
  split; [reflexivity|]. split; [apply new_deck_NoDup|].
  split; [apply new_deck_complete|]. split; [apply deal_inr_iff|].
  split; [|split; [reflexivity | apply deal_inl_iff]].
  intros cards k Hperm.
  pose proof (Permutation_length Hperm) as Hlen. rewrite new_deck_length in Hlen.
  split.
  - intro Hk. apply deal_n_enough. lia.
  - intros dealt rest Hd. apply deal_n_inr in Hd as [Hcards Hdealt].
    split; [assumption|]. split; [assumption|].
    assert (NoDup cards) as Hnd.
    { eapply Permutation_NoDup; [apply Permutation_sym, Hperm | apply new_deck_NoDup]. }
    split.
    + unfold Deck.remaining. rewrite Hcards, length_app, length_rev in Hlen. lia.
    + rewrite Hcards in Hnd. eapply Permutation_NoDup; [|exact Hnd].
      apply Permutation_app_head, Permutation_sym, Permutation_rev.
Qed.

Lemma deck_invariant_witness :
  exists dealt rest,
    Deck.deal_n 3 Deck.new = inr (dealt, rest)
    /\ Deck.remaining rest = 52 - 3
    /\ NoDup (rest ++ dealt).
Proof.
  destruct deck_invariant as (_ & _ & _ & _ & H & _).
  destruct (H Deck.new 3%nat (Permutation_refl _)) as [Hsome Hall].
  destruct (Hsome ltac:(lia)) as (dealt & rest & Hd).
  exists dealt, rest. split; [assumption|].
  destruct (Hall dealt rest Hd) as (_ & _ & Hrem & Hnd). now split.
Defined.

Section SessionDeck.

Variable shuffle : Deck.t -> Deck.t.
Hypothesis shuffle_perm : forall cards, Permutation (shuffle cards) cards.

(** A new session starts from a deck that is the new one in some order,
    and so does every hand after [reset_for_new_hand] replaced the deck. *)
Lemma init_deck_perm (starting_balance target_balance : Z) (mode : string) :
  Permutation (deck (__init__ shuffle starting_balance target_balance mode)) Deck.new.
Proof. apply shuffle_perm. Qed.

Lemma reset_for_new_hand_deck (self : BlackjackGame) :
  exists self',
    reset_for_new_hand shuffle self = Returned tt self'
    /\ player_hand self' = [] /\ dealer_hand self' = []
    /\ game_state self' = "betting" /\ current_bet self' = 0
    /\ balance self' = balance self
    /\ (if Deck.remaining (deck self) <? 10
        then Permutation (deck self') Deck.new
        else deck self' = deck self).
Proof.
  unfold reset_for_new_hand, bind, assign, get, ret. cbn.
  destruct (Deck.remaining (deck self) <? 10); eexists; (split; [reflexivity|]);
    cbn; repeat split. apply shuffle_perm.
Qed.

End SessionDeck.

(** ** Claims about the comparators *)

Lemma compare_hands_inl (p d : pyval) (e : exn) :
  compare_hands p d = inl e ->
  (invalid_total p \/ invalid_total d)
  /\ (e = TypeError "Totals must be integers"
      \/ e = ValueError "Totals must be non-negative").
Proof.
  unfold compare_hands, invalid_total.
  destruct (isinstance_int p) eqn:Hp, (isinstance_int d) eqn:Hd; cbn [negb orb];
    try (intros [= <-]; split; auto; fail).
  destruct (int_of p <? 0) eqn:Hpn; cbn [orb].
  - apply Z.ltb_lt in Hpn. intros [= <-]. split; auto.
  - destruct (int_of d <? 0) eqn:Hdn.
    + apply Z.ltb_lt in Hdn. intros [= <-]. split; auto.
    + repeat match goal with |- context [if ?b then _ else _] => destruct b end;
        discriminate.
Qed.

Lemma compare_hands_valid (p d : pyval) :
  ~ invalid_total p -> ~ invalid_total d ->
  compare_hands p d
  = if int_of p >? 21
    then inr ("bust", "Player busts with " +++ fmt p +++ ". Dealer wins.")
    else if int_of d >? 21
    then inr ("win", "Dealer busts with " +++ fmt d +++ ". Player wins!")
    else if int_of p >? int_of d
    then inr ("win", "Player wins: " +++ fmt p +++ " vs " +++ fmt d +++ ".")
    else if int_of p <? int_of d
    then inr ("lose", "Dealer wins: " +++ fmt d +++ " vs " +++ fmt p +++ ".")
    else inr ("push", "Push (tie) at " +++ fmt p +++ ".").
Proof.
  unfold invalid_total, compare_hands. intros Hp Hd.
  destruct (isinstance_int p); [|tauto]. destruct (isinstance_int d); [|tauto].
  cbn [negb orb].
  destruct (Z.ltb_spec (int_of p) 0); [tauto|].
  destruct (Z.ltb_spec (int_of d) 0); [tauto|]. reflexivity.
Qed.

(** C4: [compare_hands] raises exactly when a total is not an integer or is
    negative, and then a [TypeError] or a [ValueError]; on valid totals it
    returns bust when the player exceeds 21, else win when the dealer
    exceeds 21, else win, lose or push as the player's total is greater
    than, less than or equal to the dealer's. *)
Theorem compare_hands_contract :
  (forall p d,
      (exists e, compare_hands p d = inl e) <-> invalid_total p \/ invalid_total d)
  /\ (forall p d e,
         compare_hands p d = inl e ->
         e = TypeError "Totals must be integers"
         \/ e = ValueError "Totals must be non-negative")
  /\ (forall p d,
         ~ invalid_total p -> ~ invalid_total d ->
         exists result message,
           compare_hands p d = inr (result, message)
           /\ (21 < int_of p -> result = "bust")
           /\ (int_of p <= 21 -> 21 < int_of d -> result = "win")
           /\ (int_of p <= 21 -> int_of d <= 21 -> int_of d < int_of p -> result = "win")
           /\ (int_of p <= 21 -> int_of d <= 21 -> int_of p < int_of d -> result = "lose")
           /\ (int_of p <= 21 -> int_of d <= 21 -> int_of p = int_of d -> result = "push"))
  /\ category (compare_hands (PyInt 22) (PyInt 18)) = Some "bust"
  /\ category (compare_hands (PyInt 20) (PyInt 22)) = Some "win"
  /\ category (compare_hands (PyInt 20) (PyInt 19)) = Some "win"
  /\ category (compare_hands (PyInt 18) (PyInt 20)) = Some "lose"
  /\ category (compare_hands (PyInt 21) (PyInt 21)) = Some "push"
  /\ compare_hands (PyInt (-1)) (PyInt 5) = inl (ValueError "Totals must be non-negative").
Proof.
  split; [|split; [|split; [|repeat split]]].
  - intros p d. split.
    + intros (e & He). now apply compare_hands_inl in He.
    + intro Hinv.
      destruct (compare_hands p d) as [e | [r m]] eqn:E; [now exists e|]. exfalso.
      revert E. unfold compare_hands, invalid_total in *.
      destruct (isinstance_int p), (isinstance_int d); cbn [negb orb];
        try discriminate.
      destruct (Z.ltb_spec (int_of p) 0); [discriminate|].
      destruct (Z.ltb_spec (int_of d) 0); [discriminate|].
      destruct Hinv as [[|]|[|]]; try discriminate; lia.
  - intros p d e He. now apply compare_hands_inl in He.
  - intros p d Hp Hd. rewrite (compare_hands_valid p d Hp Hd).
    destruct (Z.gtb_spec (int_of p) 21).
    { eexists _, _. split; [reflexivity|]. repeat split; intros; try reflexivity; lia. }
    destruct (Z.gtb_spec (int_of d) 21).
    { eexists _, _. split; [reflexivity|]. repeat split; intros; try reflexivity; lia. }
    destruct (Z.gtb_spec (int_of p) (int_of d)).
    { eexists _, _. split; [reflexivity|]. repeat split; intros; try reflexivity; lia. }
    destruct (Z.ltb_spec (int_of p) (int_of d)).
    { eexists _, _. split; [reflexivity|]. repeat split; intros; try reflexivity; lia. }
    eexists _, _. split; [reflexivity|]. repeat split; intros; try reflexivity; lia.
Qed.

Lemma compare_hands_contract_witness :
  exists result message,
    compare_hands (PyInt 18) (PyBool true) = inr (result, message)
    /\ result = "win".
Proof.
  destruct compare_hands_contract as (_ & _ & H & _).
  destruct (H (PyInt 18) (PyBool true)) as (r & m & Heq & _ & _ & Hwin & _).
  - unfold invalid_total. simpl. intros [|]; [discriminate | lia].
  - unfold invalid_total. simpl. intros [|]; [discriminate | lia].
  - exists r, m. split; [assumption|]. apply Hwin; simpl; lia.
Defined.

(** C9: on every pair of arguments [compare_totals] and [compare_hands]
    fail together, with the same exception, or succeed together with the
    same result category; the messages are the same too, except when the
    dealer is bust, where one ends in an exclamation mark and the other in
    a full stop. *)
Theorem compare_totals_agrees (p d : pyval) :
  match compare_hands p d, compare_totals p d with
  | inl e1, inl e2 => e1 = e2 /\ (invalid_total p \/ invalid_total d)
  | inr (r1, m1), inr (r2, m2) =>
      r1 = r2
      /\ (m1 = m2
          \/ (r1 = "win" /\ 21 < int_of d
              /\ m1 = "Dealer busts with " +++ fmt d +++ ". Player wins!"
              /\ m2 = "Dealer busts with " +++ fmt d +++ ". Player wins."))
  | _, _ => False
  end.
Proof.
  destruct (compare_hands p d) as [e | [r m]] eqn:E.
  - pose proof (compare_hands_inl _ _ _ E) as [Hinv _].
    revert E. unfold compare_hands, compare_totals.
    destruct (negb (isinstance_int p) || negb (isinstance_int d)).
    { intros [= <-]. now split. }
    destruct ((int_of p <? 0) || (int_of d <? 0)).
    { intros [= <-]. now split. }
    repeat match goal with |- context [if ?b then _ else _] => destruct b end;
      discriminate.
  - revert E. unfold compare_hands, compare_totals.
    destruct (negb (isinstance_int p) || negb (isinstance_int d)); [discriminate|].
    destruct ((int_of p <? 0) || (int_of d <? 0)); [discriminate|].
    destruct (int_of p >? 21). { intros [= <- <-]. auto. }
    destruct (Z.gtb_spec (int_of d) 21).
    { intros [= <- <-]. split; [reflexivity|]. right. repeat split. lia. }
    destruct (int_of p >? int_of d). { intros [= <- <-]. auto. }
    destruct (int_of p <? int_of d); intros [= <- <-]; auto.
Qed.

(** ** Facts about the payout computation *)

Lemma iter_pos_nat {A} (f : A -> A) (p : positive) (x : A) :
  iter_pos f p x = Nat.iter (Pos.to_nat p) f x.
Proof.
  revert x. induction p as [p IH | p IH |]; intro x; cbn [iter_pos].
  - rewrite !IH, Pos2Nat.inj_xI, <- Nat.iter_succ_r.
    rewrite <- Nat.iter_add. f_equal. lia.
  - rewrite !IH, Pos2Nat.inj_xO, <- Nat.iter_add. f_equal. lia.
  - reflexivity.
Qed.

Lemma shr_1_even (k : Z) :
  shr_1 {| shr_m := 2 * k; shr_r := false; shr_s := false |}
  = {| shr_m := k; shr_r := false; shr_s := false |}.
Proof. destruct k as [|p|p]; reflexivity. Qed.

Lemma iter_shr_1_exact (n : nat) (k : Z) :
  Nat.iter n shr_1 {| shr_m := k * 2 ^ Z.of_nat n; shr_r := false; shr_s := false |}
  = {| shr_m := k; shr_r := false; shr_s := false |}.
Proof.
  induction n as [|n IH].
  - simpl. f_equal. lia.
  - rewrite Nat.iter_succ_r.
    replace (k * 2 ^ Z.of_nat (S n)) with (2 * (k * 2 ^ Z.of_nat n)).
    + rewrite shr_1_even. exact IH.
    + rewrite Nat2Z.inj_succ, Z.pow_succ_r by lia. ring.
Qed.

Lemma digits2_pos_size (p : positive) : digits2_pos p = Pos.size p.
Proof. induction p; simpl; congruence. Qed.

Lemma digits2_bounds (p : positive) :
  2 ^ (Zpos (digits2_pos p) - 1) <= Zpos p < 2 ^ Zpos (digits2_pos p).
Proof.
  rewrite digits2_pos_size. split.
  - pose proof (Pos.size_le p) as H.
    assert (Zpos (2 ^ Pos.size p) <= Zpos p~0) as H' by exact H.
    rewrite Pos2Z.inj_pow in H'.
    replace (Zpos (Pos.size p)) with (Z.succ (Zpos (Pos.size p) - 1)) in H' by lia.
    rewrite Z.pow_succ_r in H' by lia. lia.
  - pose proof (Pos.size_gt p) as H.
    assert (Zpos p < Zpos (2 ^ Pos.size p)) as H' by exact H.
    now rewrite Pos2Z.inj_pow in H'.
Qed.

Lemma digits2_unique (p : positive) (d : Z) :
  2 ^ (d - 1) <= Zpos p < 2 ^ d -> Zpos (digits2_pos p) = d.
Proof.
  intros [Hlo Hhi]. pose proof (digits2_bounds p) as [Hlo' Hhi'].
  assert (0 < d) as Hd.
  { destruct (Z.ltb_spec 0 d); [assumption|]. exfalso.
    assert (2 ^ d <= 2 ^ 0) by (apply Z.pow_le_mono_r; lia). simpl in *. lia. }
  set (d' := Zpos (digits2_pos p)) in *.
  destruct (Z.lt_trichotomy d' d) as [H | [H | H]]; [|assumption|]; exfalso.
  - assert (2 ^ d' <= 2 ^ (d - 1)) by (apply Z.pow_le_mono_r; lia). lia.
  - assert (2 ^ d <= 2 ^ (d' - 1)) by (apply Z.pow_le_mono_r; lia). lia.
Qed.

Lemma pos_mul_pow2 (q : positive) (k : Z) :
  0 <= k -> exists r, Zpos r = Zpos q * 2 ^ k.
Proof.
  intro Hk. assert (0 < Zpos q * 2 ^ k) as H.
  { apply Z.mul_pos_pos; [lia | apply Z.pow_pos_nonneg; lia]. }
  destruct (Zpos q * 2 ^ k) as [|r|r]; try lia. now exists r.
Qed.

Lemma digits2_mul_pow2 (q r : positive) (k : Z) :
  0 <= k -> Zpos r = Zpos q * 2 ^ k ->
  Zpos (digits2_pos r) = Zpos (digits2_pos q) + k.
Proof.
  intros Hk Hr. apply digits2_unique. rewrite Hr.
  pose proof (digits2_bounds q) as [Hlo Hhi].
  assert (0 < 2 ^ k) by (apply Z.pow_pos_nonneg; lia).
  replace (Zpos (digits2_pos q) + k - 1) with (Zpos (digits2_pos q) - 1 + k) by lia.
  rewrite !Z.pow_add_r by lia. split; nia.
Qed.

Lemma shr_fexp_exact (q : positive) (k ex : Z) :
  Zpos (digits2_pos q) <= 53 ->
  53 - Zpos (digits2_pos q) <= k ->
  -1074 <= ex + k + Zpos (digits2_pos q) - 53 ->
  shr_fexp 53 1024 (Zpos q * 2 ^ k) ex loc_Exact
  = ({| shr_m := Zpos q * 2 ^ (53 - Zpos (digits2_pos q));
        shr_r := false; shr_s := false |},
     ex + k + Zpos (digits2_pos q) - 53).
Proof.
  intros Hd Hk He. set (dq := Zpos (digits2_pos q)) in *.
  assert (0 <= k) as Hk0 by lia.
  destruct (pos_mul_pow2 q k Hk0) as (r & Hr).
  pose proof (digits2_mul_pow2 q r k Hk0 Hr) as Hdr. fold dq in Hdr.
  unfold shr_fexp. rewrite <- Hr. cbn [Zdigits2]. rewrite Hdr.
  unfold fexp, emin.
  replace (Z.max (dq + k + ex - 53) (3 - 1024 - 53)) with (dq + k + ex - 53) by lia.
  replace (dq + k + ex - 53 - ex) with (dq + k - 53) by lia.
  cbn [shr_record_of_loc]. unfold shr.
  destruct (dq + k - 53) as [|n|n] eqn:En; try lia.
  - f_equal; [|lia]. f_equal. rewrite Hr. f_equal. f_equal. lia.
  - rewrite iter_pos_nat. f_equal; [|lia].
    rewrite Hr. replace k with ((53 - dq) + Z.of_nat (Pos.to_nat n)) by lia.
    rewrite Z.pow_add_r by lia. rewrite Z.mul_assoc.
    apply iter_shr_1_exact.
Qed.

Lemma binary_round_aux_exact (s : bool) (q : positive) (k ex : Z) :
  Zpos (digits2_pos q) <= 53 ->
  53 - Zpos (digits2_pos q) <= k ->
  -1074 <= ex + k + Zpos (digits2_pos q) - 53 <= 971 ->
  exists m,
    Zpos m = Zpos q * 2 ^ (53 - Zpos (digits2_pos q))
    /\ binary_round_aux 53 1024 s (Zpos q * 2 ^ k) ex loc_Exact
       = S754_finite s m (ex + k + Zpos (digits2_pos q) - 53).
Proof.
  intros Hd Hk He. set (dq := Zpos (digits2_pos q)) in *.
  destruct (pos_mul_pow2 q (53 - dq)) as (m & Hm); [lia|].
  exists m. split; [assumption|].
  pose proof (digits2_mul_pow2 q m (53 - dq) ltac:(lia) Hm) as Hdm. fold dq in Hdm.
  unfold binary_round_aux.
  rewrite (shr_fexp_exact q k ex) by (fold dq; lia). fold dq.
  cbn [shr_m loc_of_shr_record round_nearest_even]. rewrite <- Hm.
  replace (Zpos m) with (Zpos m * 2 ^ 0) at 1 by (simpl; lia).
  rewrite (shr_fexp_exact m 0) by lia.
  cbn [shr_m]. replace (53 - Zpos (digits2_pos m)) with 0 by lia.
  replace (Zpos m * 2 ^ 0) with (Zpos m) by (simpl; lia).
  replace (ex + k + dq - 53 + 0 + Zpos (digits2_pos m) - 53) with (ex + k + dq - 53) by lia.
  destruct (Z.leb_spec (ex + k + dq - 53) (1024 - 53)); [reflexivity | lia].
Qed.

Lemma pos_iter_xO (p d : positive) :
  Zpos (Pos.iter xO p d) = Zpos p * 2 ^ Zpos d.
Proof.
  induction d as [|d IH] using Pos.peano_ind.
  - simpl. lia.
  - rewrite Pos.iter_succ, Pos2Z.inj_xO, IH, Pos2Z.inj_succ, Z.pow_succ_r by lia. ring.
Qed.

Lemma digits2_le_53 (q : positive) : Zpos q < 2 ^ 53 -> Zpos (digits2_pos q) <= 53.
Proof.
  intro H. pose proof (digits2_bounds q) as [Hlo _].
  destruct (Z.leb_spec (Zpos (digits2_pos q)) 53); [assumption|]. exfalso.
  assert (2 ^ 53 <= 2 ^ (Zpos (digits2_pos q) - 1)) by (apply Z.pow_le_mono_r; lia).
  lia.
Qed.

(** The conversion of an integer below [2^53] to a float is exact. *)
Lemma binary_round_int_exact (s : bool) (p : positive) :
  Zpos p < 2 ^ 53 ->
  exists m,
    Zpos m = Zpos p * 2 ^ (53 - Zpos (digits2_pos p))
    /\ binary_round 53 1024 s p 0 = S754_finite s m (Zpos (digits2_pos p) - 53).
Proof.
  intro Hp. pose proof (digits2_le_53 p Hp) as Hd.
  set (d := Zpos (digits2_pos p)) in *.
  assert (1 <= d) as Hd1 by (unfold d; lia).
  unfold binary_round, shl_align, fexp, emin. fold d.
  replace (Z.max (d + 0 - 53) (3 - 1024 - 53)) with (d - 53) by lia.
  replace (d - 53 - 0) with (d - 53) by lia.
  destruct (d - 53) as [|n|n] eqn:En; try lia.
  - destruct (binary_round_aux_exact s p 0 0) as (m & Hm & Hr); fold d; try lia.
    exists m. split; [assumption|].
    replace (Zpos p * 2 ^ 0) with (Zpos p) in Hr by (simpl; lia).
    rewrite Hr. f_equal. lia.
  - destruct (binary_round_aux_exact s p (53 - d) (Z.neg n)) as (m & Hm & Hr);
      fold d; try lia.
    exists m. split; [assumption|].
    rewrite pos_iter_xO. replace (Zpos n) with (53 - d) by lia.
    rewrite Hr. f_equal. lia.
Qed.

(** Below [2^53 / 3] in magnitude, the conversion, the product and the
    truncation are all exact. *)
Lemma times_1_5_pos (s : bool) (p : positive) :
  3 * Zpos p < 2 ^ 53 ->
  exists m e,
    binary_round 53 1024 s p 0 = S754_finite s m e
    /\ int_of_float (SFmul 53 1024 (S754_finite s m e) one_and_a_half)
       = inr (cond_Zopp s ((3 * Zpos p) / 2)).
Proof.
  intro H3.
  destruct (binary_round_int_exact s p) as (m & Hm & Hx); [lia|].
  eexists _, _. split; [exact Hx|].
  pose proof (digits2_le_53 p ltac:(lia)) as Hd.
  set (d := Zpos (digits2_pos p)) in *.
  assert (1 <= d) as Hd1 by (unfold d; lia).
  unfold one_and_a_half. cbn [SFmul]. rewrite xorb_false_r.
  assert (Zpos (m * 6755399441055744) = Zpos (p * 3) * 2 ^ (104 - d)) as ->.
  { rewrite !Pos2Z.inj_mul, Hm.
    replace (104 - d) with ((53 - d) + 51) by lia.
    rewrite Z.pow_add_r by lia. change (2 ^ 51) with 2251799813685248. lia. }
  assert (Zpos (p * 3) < 2 ^ 53) as H3' by (rewrite Pos2Z.inj_mul; lia).
  pose proof (digits2_le_53 (p * 3) H3') as HD.
  set (D := Zpos (digits2_pos (p * 3))) in *.
  assert (1 <= D) as HD1 by (unfold D; lia).
  assert (d <= D) as HdD.
  { pose proof (digits2_bounds p) as [Hlo _].
    pose proof (digits2_bounds (p * 3)) as [_ Hhi]. fold d in Hlo. fold D in Hhi.
    destruct (Z.leb_spec d D); [assumption|]. exfalso.
    assert (2 ^ D <= 2 ^ (d - 1)) by (apply Z.pow_le_mono_r; lia). lia. }
  destruct (binary_round_aux_exact s (p * 3) (104 - d) (d - 53 + -52))
    as (m' & Hm' & ->); fold D; try lia.
  unfold int_of_float. f_equal. f_equal.
  destruct (d - 53 + -52 + (104 - d) + D - 53) as [|e|e] eqn:Ee; try lia.
  fold D in Hm'. rewrite Hm', Pos2Z.inj_mul.
  replace (Zpos e) with (Z.succ (53 - D)) by lia.
  rewrite Z.pow_succ_r by lia.
  assert (0 < 2 ^ (53 - D)) by (apply Z.pow_pos_nonneg; lia).
  replace (Zpos p * 3 * 2 ^ (53 - D)) with (2 ^ (53 - D) * (3 * Zpos p)) by ring.
  rewrite (Z.mul_comm 2).
  rewrite Z.div_mul_cancel_l by lia. reflexivity.
Qed.

(** For a bet with [|3 * bet| < 2^53], [int(bet * 1.5)] is [3 * bet / 2]
    rounded toward zero. *)
Lemma int_of_times_1_5_exact (bet : Z) :
  - 2 ^ 53 < 3 * bet < 2 ^ 53 ->
  int_of_times_1_5 bet = inr (Z.quot (3 * bet) 2).
Proof.
  intro H. unfold int_of_times_1_5, float_of_int, binary_normalize, prec, emax.
  destruct bet as [|p|p].
  - reflexivity.
  - destruct (times_1_5_pos false p) as (m & e & Hx & Hint); [lia|].
    rewrite Hx, Hint. cbn [cond_Zopp]. now rewrite Z.quot_div_nonneg by lia.
  - destruct (times_1_5_pos true p) as (m & e & Hx & Hint); [lia|].
    rewrite Hx, Hint. cbn [cond_Zopp]. f_equal.
    replace (3 * Z.neg p) with (- (3 * Zpos p)) by lia.
    rewrite Z.quot_opp_l by lia. now rewrite Z.quot_div_nonneg by lia.
Qed.

Lemma int_of_times_1_5_floor (bet : Z) :
  0 <= bet -> 3 * bet < 2 ^ 53 ->
  int_of_times_1_5 bet = inr ((3 * bet) / 2).
Proof.
  intros H0 H. rewrite int_of_times_1_5_exact by lia.
  now rewrite Z.quot_div_nonneg by lia.
Qed.

(** Past that range the conversion to a float rounds: for a bet of
    [2^53 + 1] the result is one less than [3 * bet / 2] rounded down. *)
Lemma int_of_times_1_5_inexact :
  int_of_times_1_5 (2 ^ 53 + 1) = inr (3 * 2 ^ 52)
  /\ (3 * (2 ^ 53 + 1)) / 2 = 3 * 2 ^ 52 + 1.
Proof. split; vm_compute; reflexivity. Qed.

(** ** Running the methods *)

Lemma deal_card_top (self : BlackjackGame) (c : Card) (stack : list Card) :
  deck self = rev (c :: stack) ->
  deal_card self = Returned c (set_deck (rev stack) self).
Proof.
  intro H. unfold deal_card. rewrite H. simpl rev. now rewrite deal_snoc.
Qed.

Lemma deal_card_empty (self : BlackjackGame) :
  deck self = [] ->
  deal_card self = Raised (ValueError "Deck is empty") self.
Proof. intro H. unfold deal_card. now rewrite H. Qed.

Lemma deck_top_cards (cards : Deck.t) (n : nat) :
  (n <= List.length cards)%nat ->
  exists top stack, List.length top = n /\ cards = rev (top ++ stack).
Proof.
  intro H. exists (firstn n (rev cards)), (skipn n (rev cards)).
  rewrite firstn_skipn, rev_involutive, length_firstn, length_rev.
  split; [lia | reflexivity].
Qed.

Lemma deck_top_four (cards : Deck.t) :
  (4 <= List.length cards)%nat ->
  exists c1 c2 c3 c4 stack, cards = rev (c1 :: c2 :: c3 :: c4 :: stack).
Proof.
  intro H. destruct (deck_top_cards cards 4 H) as (top & stack & Hlen & ->).
  destruct top as [|c1 [|c2 [|c3 [|c4 [|]]]]]; try discriminate.
  now exists c1, c2, c3, c4, stack.
Qed.

(** [place_bet] never raises; an accepted bet is zero in practice mode and
    otherwise positive and within the balance, and a refused one changes
    nothing. *)
Lemma place_bet_spec (amount : Z) (self : BlackjackGame) :
  exists ok message self',
    place_bet amount self = Returned (ok, message) self'
    /\ (ok = true ->
        game_state self' = "dealing" /\ balance self' = balance self
        /\ deck self' = deck self
        /\ (mode self = "practice" -> current_bet self' = 0)
        /\ (mode self <> "practice" ->
            current_bet self' = amount /\ 0 < amount <= balance self))
    /\ (ok = false -> self' = self).
Proof.
  unfold place_bet, bind, get, assign, ret.
  destruct (String.eqb_spec (mode self) "practice") as [Hm | Hm].
  { eexists _, _, _. split; [reflexivity|]. split; [|discriminate].
    intros _. cbn. repeat split; intros; try contradiction; reflexivity. }
  destruct (Z.leb_spec amount 0).
  { eexists _, _, _. split; [reflexivity|]. split; [discriminate | reflexivity]. }
  destruct (Z.gtb_spec amount (balance self)).
  { eexists _, _, _. split; [reflexivity|]. split; [discriminate | reflexivity]. }
  destruct (Z.leb_spec (balance self) 0).
  { eexists _, _, _. split; [reflexivity|]. split; [discriminate | reflexivity]. }
  eexists _, _, _. split; [reflexivity|]. split; [|discriminate].
  intros _. cbn. repeat split; intros; try contradiction; try reflexivity; lia.
Qed.

(** The state [deal_initial_hands] leaves when the deck holds four cards. *)
Lemma deal_initial_hands_run (self : BlackjackGame) (c1 c2 c3 c4 : Card)
      (stack : list Card) (payout : Z) :
  deck self = rev (c1 :: c2 :: c3 :: c4 :: stack) ->
  int_of_times_1_5 (current_bet self) = inr payout ->
  let player_total := fst (calculate_hand_value [c1; c2]) in
  let dealer_total := fst (calculate_hand_value [c3; c4]) in
  deal_initial_hands self
  = Returned tt
      {| starting_balance := starting_balance self;
         target_balance := target_balance self;
         mode := mode self;
         balance :=
           if (player_total =? 21) && negb (dealer_total =? 21)
           then balance self + payout
           else if (dealer_total =? 21) && negb (player_total =? 21)
           then balance self - current_bet self
           else balance self;
         current_bet := current_bet self;
         deck := rev stack;
         player_hand := [c1; c2];
         dealer_hand := [c3; c4];
         game_state :=
           if (player_total =? 21) || (dealer_total =? 21)
           then "result" else "playing";
         result_message :=
           if (player_total =? 21) && negb (dealer_total =? 21)
           then "Natural Blackjack! Player wins!"
           else if (dealer_total =? 21) && negb (player_total =? 21)
           then "Dealer has Blackjack! Dealer wins."
           else if (player_total =? 21) && (dealer_total =? 21)
           then "Both have Blackjack! Push."
           else result_message self |}.
Proof.
  intros Hdeck Hpay player_total dealer_total.
  unfold deal_initial_hands, bind.
  rewrite (deal_card_top self c1 _ Hdeck). cbv beta iota.
  rewrite (deal_card_top _ c2 (c3 :: c4 :: stack)) by reflexivity.
  unfold assign at 1. cbv beta iota.
  rewrite (deal_card_top _ c3 (c4 :: stack)) by reflexivity. cbv beta iota.
  rewrite (deal_card_top _ c4 stack) by reflexivity.
  unfold assign, get, ret, call.
  cbn [player_hand dealer_hand set_deck set_player_hand set_dealer_hand
       set_game_state set_result_message
       starting_balance target_balance mode balance current_bet deck
       game_state result_message].
  fold player_total dealer_total.
  destruct (player_total =? 21), (dealer_total =? 21);
    cbn [andb orb negb current_bet set_game_state set_result_message
         set_dealer_hand set_player_hand set_deck];
    rewrite ?Hpay; reflexivity.
Qed.

(** [deal_initial_hands] on a deck too short to deal four cards raises. *)
Lemma deal_initial_hands_short (self : BlackjackGame) :
  (List.length (deck self) < 4)%nat ->
  exists self', deal_initial_hands self = Raised (ValueError "Deck is empty") self'.
Proof.
  intro H. unfold deal_initial_hands, bind.
  destruct (snoc_cases (deck self)) as [E | (l1 & x1 & E1)].
  { rewrite (deal_card_empty _ E). eauto. }
  rewrite <- (rev_involutive l1) in E1.
  rewrite (deal_card_top self x1 (rev l1)) by (simpl; exact E1). cbv beta iota.
  rewrite E1, length_app, length_rev in H. simpl in H.
  destruct (rev l1) as [|x2 l2]. { rewrite deal_card_empty by reflexivity. eauto. }
  rewrite (deal_card_top _ x2 l2) by reflexivity. unfold assign at 1. cbv beta iota.
  simpl in H.
  destruct l2 as [|x3 l3]. { rewrite deal_card_empty by reflexivity. eauto. }
  rewrite (deal_card_top _ x3 l3) by reflexivity. cbv beta iota.
  destruct l3 as [|x4 l4]. { rewrite deal_card_empty by reflexivity. eauto. }
  simpl in H. lia.
Qed.

(** The state [player_hit] leaves in the playing phase with a card to draw. *)
Lemma player_hit_run (self : BlackjackGame) (c : Card) (stack : list Card) :
  game_state self = "playing" ->
  deck self = rev (c :: stack) ->
  let player_total := fst (calculate_hand_value (player_hand self ++ [c])) in
  player_hit self
  = if player_total >? 21
    then Returned
           ("bust", "Player busts with " +++ str_of_Z player_total +++ ". Dealer wins.")
           {| starting_balance := starting_balance self;
              target_balance := target_balance self;
              mode := mode self;
              balance := balance self - current_bet self;
              current_bet := current_bet self;
              deck := rev stack;
              player_hand := player_hand self ++ [c];
              dealer_hand := dealer_hand self;
              game_state := "result";
              result_message :=
                "Player busts with " +++ str_of_Z player_total +++ ". Dealer wins." |}
    else Returned
           ("hit", "Hit! New total: " +++ str_of_Z player_total)
           {| starting_balance := starting_balance self;
              target_balance := target_balance self;
              mode := mode self;
              balance := balance self;
              current_bet := current_bet self;
              deck := rev stack;
              player_hand := player_hand self ++ [c];
              dealer_hand := dealer_hand self;
              game_state := "playing";
              result_message := result_message self |}.
Proof.
  intros Hstate Hdeck player_total.
  unfold player_hit, bind, get at 1. rewrite Hstate, String.eqb_refl.
  cbn [negb]. cbv beta.
  rewrite (deal_card_top self c stack Hdeck).
  unfold assign at 1. unfold get at 1.
  cbn [player_hand set_player_hand set_deck].
  fold player_total.
  destruct (Z.gtb_spec player_total 21) as [Hbust | Hok].
  - unfold assign at 1.
    assert (compare_hands (PyInt player_total) (PyInt 0)
            = inr ("bust", "Player busts with " +++ str_of_Z player_total
                           +++ ". Dealer wins.")) as ->.
    { unfold compare_hands. cbn [isinstance_int negb orb int_of fmt].
      destruct (Z.ltb_spec player_total 0); [lia|]. cbn [Z.ltb Z.compare orb].
      destruct (Z.gtb_spec player_total 21); [reflexivity | lia]. }
    unfold call, assign, get, ret. reflexivity.
  - unfold ret, set_player_hand, set_deck.
    cbn [starting_balance target_balance mode balance current_bet deck
         player_hand dealer_hand game_state result_message].
    now rewrite Hstate.
Qed.

Lemma player_hit_invalid (self : BlackjackGame) :
  game_state self <> "playing" ->
  player_hit self = Returned ("invalid", "Cannot hit now.") self.
Proof.
  intro H. unfold player_hit, bind, get at 1.
  destruct (String.eqb_spec (game_state self) "playing"); [contradiction|].
  reflexivity.
Qed.

Lemma player_hit_empty_deck (self : BlackjackGame) :
  game_state self = "playing" ->
  deck self = [] ->
  player_hit self = Raised (ValueError "Deck is empty") self.
Proof.
  intros Hstate Hdeck. unfold player_hit, bind, get at 1.
  rewrite Hstate, String.eqb_refl. cbn [negb]. cbv beta.
  now rewrite (deal_card_empty self Hdeck).
Qed.

Lemma set_dealer_deck_same (self : BlackjackGame) (stack : list Card) :
  deck self = rev stack ->
  set_dealer_hand (dealer_hand self ++ []) (set_deck (rev stack) self) = self.
Proof.
  destruct self; cbn. intros <-. unfold set_dealer_hand, set_deck; cbn.
  now rewrite app_nil_r.
Qed.

(** The dealer's loop either stops after drawing [drawn] from the top of
    the deck, with a total of at least 17 that no earlier hand reached, or
    draws the whole deck without reaching 17 and raises on the next draw. *)
Lemma dealer_loop_spec (stack : list Card) :
  forall self : BlackjackGame,
    deck self = rev stack ->
    (exists drawn stack',
        stack = drawn ++ stack'
        /\ dealer_loop stack self
           = Returned tt (set_dealer_hand (dealer_hand self ++ drawn)
                            (set_deck (rev stack') self))
        /\ 17 <= hand_total (dealer_hand self ++ drawn)
        /\ forall n, (n < List.length drawn)%nat ->
                     hand_total (dealer_hand self ++ firstn n drawn) < 17)
    \/ (dealer_loop stack self
        = Raised (ValueError "Deck is empty")
            (set_dealer_hand (dealer_hand self ++ stack) (set_deck (rev []) self))
        /\ forall n, (n <= List.length stack)%nat ->
                     hand_total (dealer_hand self ++ firstn n stack) < 17).
Proof.
  induction stack as [|c stack IH]; intros self Hdeck.
  - cbn [dealer_loop]. fold (hand_total (dealer_hand self)).
    destruct (Z.geb_spec (hand_total (dealer_hand self)) 17) as [Hge | Hlt].
    + left. exists [], []. rewrite (set_dealer_deck_same self [] Hdeck), (app_nil_r (dealer_hand self)).
      split; [reflexivity|]. split; [reflexivity|]. split; [assumption|].
      intros n Hn. inversion Hn.
    + right. rewrite (set_dealer_deck_same self [] Hdeck). split; [reflexivity|].
      intros n Hn. rewrite firstn_nil, app_nil_r. assumption.
  - cbn [dealer_loop]. fold (hand_total (dealer_hand self)).
    destruct (Z.geb_spec (hand_total (dealer_hand self)) 17) as [Hge | Hlt].
    + left. exists [], (c :: stack).
      rewrite (set_dealer_deck_same self (c :: stack) Hdeck), (app_nil_r (dealer_hand self)).
      split; [reflexivity|]. split; [reflexivity|]. split; [assumption|].
      intros n Hn. inversion Hn.
    + set (self1 := set_dealer_hand (dealer_hand self ++ [c])
                      (set_deck (rev stack) self)).
      destruct (IH self1 eq_refl)
        as [(drawn & stack' & -> & Hrun & Hstop & Hbefore) | [Hrun Hbefore]].
      * left. exists (c :: drawn), stack'.
        split; [reflexivity|]. split; [|split].
        -- rewrite Hrun. unfold self1, set_dealer_hand, set_deck. cbn.
           now rewrite <- app_assoc.
        -- unfold self1 in Hstop. cbn in Hstop. now rewrite <- app_assoc in Hstop.
        -- intros [|n] Hn.
           ++ cbn. now rewrite app_nil_r.
           ++ cbn [firstn]. specialize (Hbefore n). unfold self1 in Hbefore.
              cbn in Hbefore. rewrite <- app_assoc in Hbefore.
              apply Hbefore. simpl in Hn. lia.
      * right. split.
        -- rewrite Hrun. unfold self1, set_dealer_hand, set_deck. cbn.
           now rewrite <- app_assoc.
        -- intros [|n] Hn.
           ++ cbn. now rewrite app_nil_r.
           ++ cbn [firstn]. specialize (Hbefore n). unfold self1 in Hbefore.
              cbn in Hbefore. rewrite <- app_assoc in Hbefore.
              apply Hbefore. simpl in Hn. lia.
Qed.

(** One turn of the dealer's loop is the body of the [while True]:
    break at 17 or more, otherwise append a dealt card and go round. *)
Lemma dealer_loop_unfold (self : BlackjackGame) :
  dealer_loop (rev (deck self)) self
  = if hand_total (dealer_hand self) >=? 17 then Returned tt self
    else (c <- deal_card;;
          assign (fun s => set_dealer_hand (dealer_hand s ++ [c]) s);;
          (fun s => dealer_loop (rev (deck s)) s)) self.
Proof.
  unfold bind, deal_card, Deck.deal, Deck.pop, hand_total.
  destruct (rev (deck self)) as [|c stack] eqn:E; cbn [dealer_loop].
  - destruct (_ >=? 17); reflexivity.
  - destruct (_ >=? 17); [reflexivity|].
    unfold assign. cbn [deck set_deck set_dealer_hand dealer_hand].
    now rewrite rev_involutive.
Qed.

Lemma hand_total_length (cards : list Card) :
  Z.of_nat (List.length cards) <= hand_total cards.
Proof.
  unfold hand_total.
  pose proof (calculate_hand_value_total_bounds cards).
  pose proof (hard_total_length cards). lia.
Qed.

Lemma valid_total_PyInt (z : Z) : 0 <= z -> ~ invalid_total (PyInt z).
Proof. unfold invalid_total. simpl. intros H [|]; [discriminate | lia]. Qed.

(** The state [player_stand] leaves in the playing phase. *)
Lemma player_stand_run (self : BlackjackGame) :
  game_state self = "playing" ->
  (exists drawn stack' result message,
      rev (deck self) = drawn ++ stack'
      /\ 17 <= hand_total (dealer_hand self ++ drawn)
      /\ (forall n, (n < List.length drawn)%nat ->
                    hand_total (dealer_hand self ++ firstn n drawn) < 17)
      /\ compare_hands (PyInt (hand_total (player_hand self)))
                       (PyInt (hand_total (dealer_hand self ++ drawn)))
         = inr (result, message)
      /\ let balance' :=
           if String.eqb result "win" then balance self + current_bet self
           else if String.eqb result "lose" then balance self - current_bet self
           else balance self in
         player_stand self
         = Returned ("stand", message)
             {| starting_balance := starting_balance self;
                target_balance := target_balance self;
                mode := mode self;
                balance := balance';
                current_bet := current_bet self;
                deck := rev stack';
                player_hand := player_hand self;
                dealer_hand := dealer_hand self ++ drawn;
                game_state :=
                  if balance' >=? target_balance self then "won"
                  else if balance' <=? 0 then "out_of_money"
                  else "result";
                result_message := message |})
  \/ (player_stand self
      = Raised (ValueError "Deck is empty")
          (set_dealer_hand (dealer_hand self ++ rev (deck self)) (set_deck [] self))
      /\ forall n, (n <= List.length (deck self))%nat ->
                   hand_total (dealer_hand self ++ firstn n (rev (deck self))) < 17).
Proof.
  intro Hstate.
  assert (player_stand self
          = bind (fun s => dealer_loop (rev (deck s)) s)
              (fun _ =>
                 self <- get;;
                 let player_total := fst (calculate_hand_value (player_hand self)) in
                 let dealer_total := fst (calculate_hand_value (dealer_hand self)) in
                 rm <- call (compare_hands (PyInt player_total) (PyInt dealer_total));;
                 let '(result, message) := rm in
                 (if String.eqb result "win" then
                    assign (fun s => set_balance (balance s + current_bet s) s)
                  else if String.eqb result "lose" then
                    assign (fun s => set_balance (balance s - current_bet s) s)
                  else ret tt);;
                 assign (set_game_state "result");;
                 assign (set_result_message message);;
                 self <- get;;
                 (if balance self >=? target_balance self then
                    assign (set_game_state "won")
                  else if balance self <=? 0 then
                    assign (set_game_state "out_of_money")
                  else ret tt);;
                 ret ("stand", message)) self) as ->.
  { unfold player_stand. unfold bind at 1. unfold get at 1.
    now rewrite Hstate, String.eqb_refl. }
  unfold bind.
  destruct (dealer_loop_spec (rev (deck self)) self (eq_sym (rev_involutive _)))
    as [(drawn & stack' & Hsplit & Hrun & Hstop & Hbefore) | [Hrun Hbefore]].
  - left. rewrite Hrun. unfold get at 1.
    cbn [player_hand dealer_hand set_dealer_hand set_deck].
    fold (hand_total (player_hand self)).
    fold (hand_total (dealer_hand self ++ drawn)).
    destruct (compare_hands (PyInt (hand_total (player_hand self)))
                (PyInt (hand_total (dealer_hand self ++ drawn))))
      as [e | [result message]] eqn:Hcmp.
    { exfalso. apply compare_hands_inl in Hcmp as [[H | H] _]; revert H;
        apply valid_total_PyInt, calculate_hand_value_nonneg. }
    exists drawn, stack', result, message.
    split; [assumption|]. split; [assumption|]. split; [assumption|].
    split; [exact Hcmp|]. cbv zeta. unfold call.
    destruct (String.eqb result "win"); [|destruct (String.eqb result "lose")];
      unfold assign, ret, get; cbn;
      repeat match goal with |- context [if ?b then _ else _] => destruct b end;
      reflexivity.
  - right. rewrite Hrun. split; [reflexivity|].
    intros n Hn. apply Hbefore. now rewrite length_rev.
Qed.

Lemma player_stand_invalid (self : BlackjackGame) :
  game_state self <> "playing" ->
  player_stand self = Returned ("invalid", "Cannot stand now.") self.
Proof.
  intro H. unfold player_stand, bind, get at 1.
  destruct (String.eqb_spec (game_state self) "playing"); [contradiction|].
  reflexivity.
Qed.

(** ** Claims about the round *)

(** C5: with four cards in the deck and a bet that is not negative (and
    below [2^53 / 3], so that the float product is exact),
    [deal_initial_hands] returns having moved the top two cards to the
    player's hand and the next two to the dealer's, and settles by the two
    totals: both 21, result and balance unchanged; player only, result and
    balance plus the floor of one and a half bets; dealer only, result and
    balance minus the bet; neither, playing and balance unchanged.  From
    balance 2000 and bet 100 a player-only 21 gives 2150 and result. *)
Theorem deal_initial_hands_settlement (self : BlackjackGame) :
  (4 <= List.length (deck self))%nat ->
  0 <= current_bet self ->
  3 * current_bet self < 2 ^ 53 ->
  exists c1 c2 c3 c4 self',
    deal_initial_hands self = Returned tt self'
    /\ deck self = deck self' ++ [c4; c3; c2; c1]
    /\ player_hand self' = [c1; c2]
    /\ dealer_hand self' = [c3; c4]
    /\ current_bet self' = current_bet self
    /\ target_balance self' = target_balance self
    /\ (hand_total [c1; c2] = 21 -> hand_total [c3; c4] = 21 ->
        game_state self' = "result" /\ balance self' = balance self)
    /\ (hand_total [c1; c2] = 21 -> hand_total [c3; c4] <> 21 ->
        game_state self' = "result"
        /\ balance self' = balance self + (3 * current_bet self) / 2)
    /\ (hand_total [c1; c2] <> 21 -> hand_total [c3; c4] = 21 ->
        game_state self' = "result"
        /\ balance self' = balance self - current_bet self)
    /\ (hand_total [c1; c2] <> 21 -> hand_total [c3; c4] <> 21 ->
        game_state self' = "playing" /\ balance self' = balance self)
    /\ (balance self = 2000 -> current_bet self = 100 ->
        hand_total [c1; c2] = 21 -> hand_total [c3; c4] <> 21 ->
        game_state self' = "result" /\ balance self' = 2150).
Proof.
  intros Hlen Hbet Hexact.
  destruct (deck_top_four _ Hlen) as (c1 & c2 & c3 & c4 & stack & Hdeck).
  pose proof (deal_initial_hands_run self c1 c2 c3 c4 stack _ Hdeck
                (int_of_times_1_5_floor _ Hbet Hexact)) as Hrun.
  cbv zeta in Hrun. fold (hand_total [c1; c2]) (hand_total [c3; c4]) in Hrun.
  eexists c1, c2, c3, c4, _. split; [exact Hrun|].
  cbn [deck player_hand dealer_hand current_bet target_balance game_state balance].
  split. { rewrite Hdeck. simpl. now rewrite <- !app_assoc. }
  do 4 (split; [reflexivity|]).
  destruct (Z.eqb_spec (hand_total [c1; c2]) 21) as [Hp | Hp];
    destruct (Z.eqb_spec (hand_total [c3; c4]) 21) as [Hd | Hd];
    cbn [andb orb negb];
    repeat split; intros; try contradiction; try reflexivity.
  all: match goal with
       | Hb : balance _ = 2000, Hc : current_bet _ = 100 |- _ =>
           rewrite Hb, Hc; reflexivity
       end.
Qed.

Lemma deal_initial_hands_settlement_witness :
  exists self',
    deal_initial_hands classic_bet_100 = Returned tt self'
    /\ game_state self' = "result" /\ balance self' = 2150.
Proof.
  destruct (deal_initial_hands_settlement classic_bet_100)
    as (c1 & c2 & c3 & c4 & self' & Hrun & _ & Hp & Hd & _ & _ & _ & _ & _ & _ & Hex).
  - vm_compute. lia.
  - vm_compute. intro H. discriminate H.
  - vm_compute. reflexivity.
  - exists self'. split; [exact Hrun|].
    assert (self' = state_after (deal_initial_hands classic_bet_100)) as Hs
        by (rewrite Hrun; reflexivity).
    vm_compute in Hs. rewrite Hs in Hp, Hd.
    injection Hp as <- <-. injection Hd as <- <-.
    apply Hex; [reflexivity | reflexivity | reflexivity |].
    vm_compute. intro H. discriminate H.
Defined.

Lemma compare_hands_result (p d : Z) (result message : string) :
  compare_hands (PyInt p) (PyInt d) = inr (result, message) ->
  result = "bust" \/ result = "win" \/ result = "lose" \/ result = "push".
Proof.
  unfold compare_hands.
  repeat match goal with |- context [if ?b then _ else _] => destruct b end;
    intros [= <- <-]; auto.
Qed.

(** C6: in the playing phase [player_stand] returns as soon as the dealer
    can reach 17 with the cards left (seventeen cards between hand and deck
    are enough).  When it returns, the dealer drew from the top of the deck
    only while the hand was under 17 and ends at 17 or more; the balance
    gains the bet on win, loses it on lose, and is unchanged on push and
    bust; the phase is won when the balance has reached the target,
    otherwise out_of_money when it is zero or less, otherwise result.
    When it raises, the deck ran out with the dealer still under 17, and
    balance and phase are untouched. *)
Theorem player_stand_settlement (self : BlackjackGame) :
  game_state self = "playing" ->
  ((17 <= List.length (dealer_hand self) + List.length (deck self))%nat ->
   exists r self', player_stand self = Returned r self')
  /\ (forall r self',
         player_stand self = Returned r self' ->
         exists drawn result message,
           r = ("stand", message)
           /\ deck self = deck self' ++ rev drawn
           /\ dealer_hand self' = dealer_hand self ++ drawn
           /\ (forall n, (n < List.length drawn)%nat ->
                         hand_total (dealer_hand self ++ firstn n drawn) < 17)
           /\ 17 <= hand_total (dealer_hand self')
           /\ player_hand self' = player_hand self
           /\ current_bet self' = current_bet self
           /\ target_balance self' = target_balance self
           /\ compare_hands (PyInt (hand_total (player_hand self)))
                            (PyInt (hand_total (dealer_hand self')))
              = inr (result, message)
           /\ (result = "win" -> balance self' = balance self + current_bet self)
           /\ (result = "lose" -> balance self' = balance self - current_bet self)
           /\ (result = "push" \/ result = "bust" -> balance self' = balance self)
           /\ (result = "win" \/ result = "lose" \/ result = "push" \/ result = "bust")
           /\ (target_balance self <= balance self' -> game_state self' = "won")
           /\ (balance self' < target_balance self -> balance self' <= 0 ->
               game_state self' = "out_of_money")
           /\ (balance self' < target_balance self -> 0 < balance self' ->
               game_state self' = "result"))
  /\ (forall e self',
         player_stand self = Raised e self' ->
         e = ValueError "Deck is empty"
         /\ deck self' = []
         /\ dealer_hand self' = dealer_hand self ++ rev (deck self)
         /\ hand_total (dealer_hand self') < 17
         /\ balance self' = balance self
         /\ game_state self' = "playing").
Proof.
  intro Hstate.
  destruct (player_stand_run self Hstate)
    as [(drawn & stack' & result & message & Hsplit & Hstop & Hbefore & Hcmp & Hrun)
       | [Hrun Hbefore]]; cbv zeta in Hrun; rewrite Hrun.
  - split; [eauto|]. split; [|discriminate].
    intros r self' [= <- <-]. exists drawn, result, message.
    cbn [deck dealer_hand player_hand current_bet target_balance balance game_state].
    split; [reflexivity|]. split.
    { apply (f_equal (@rev Card)) in Hsplit.
      now rewrite rev_involutive, rev_app_distr in Hsplit. }
    do 2 (split; [auto|]). split; [assumption|]. do 3 (split; [reflexivity|]).
    split; [assumption|].
    pose proof (compare_hands_result _ _ _ _ Hcmp) as Hres.
    assert (forall s : string, (String.eqb result s = true) <-> result = s) as Heqb
        by (intro s; apply String.eqb_eq).
    split; [|split; [|split; [|split]]].
    + intros ->. reflexivity.
    + intros ->. reflexivity.
    + intros [-> | ->]; reflexivity.
    + tauto.
    + set (b := if String.eqb result "win" then _ else _).
      repeat split; intros.
      * destruct (Z.geb_spec b (target_balance self)); [reflexivity | lia].
      * destruct (Z.geb_spec b (target_balance self)); [lia|].
        destruct (Z.leb_spec b 0); [reflexivity | lia].
      * destruct (Z.geb_spec b (target_balance self)); [lia|].
        destruct (Z.leb_spec b 0); [lia | reflexivity].
  - split; [|split; [discriminate|]].
    + intro Hlen. exfalso.
      specialize (Hbefore (List.length (deck self)) (Nat.le_refl _)).
      rewrite <- (length_rev (deck self)), firstn_all in Hbefore.
      pose proof (hand_total_length (dealer_hand self ++ rev (deck self))) as Hl.
      rewrite length_app, length_rev in Hl. lia.
    + intros e self' [= <- <-].
      cbn [deck dealer_hand balance game_state set_dealer_hand set_deck].
      do 3 (split; [reflexivity|]). split; [|split; [reflexivity | assumption]].
      specialize (Hbefore (List.length (deck self)) (Nat.le_refl _)).
      now rewrite <- (length_rev (deck self)), firstn_all in Hbefore.
Qed.

Lemma player_stand_settlement_witness :
  exists message self',
    player_stand classic_playing = Returned ("stand", message) self'
    /\ 17 <= hand_total (dealer_hand self')
    /\ balance self' = 2100
    /\ game_state self' = "result".
Proof.
  destruct (player_stand_settlement classic_playing eq_refl) as (Hret & Hspec & _).
  destruct Hret as (r & self' & Hrun); [vm_compute; lia|].
  destruct (Hspec r self' Hrun)
    as (drawn & result & message & -> & _ & _ & _ & Hstop & _ & _ & _ & Hcmp
        & Hwin & _ & _ & _ & _ & _ & Hphase).
  exists message, self'. split; [exact Hrun|]. split; [exact Hstop|].
  assert (self' = state_after (player_stand classic_playing)) as Hs
      by (rewrite Hrun; reflexivity).
  vm_compute in Hs. rewrite Hs in Hcmp, Hwin, Hphase |- *.
  vm_compute in Hcmp. injection Hcmp as <- _.
  split; [reflexivity|]. apply Hphase; reflexivity.
Defined.

(** C7: outside the playing phase [player_hit] returns invalid and leaves
    the object as it was.  In the playing phase with a card to draw it
    appends that card to the player's hand and touches neither the dealer's
    hand nor the bet; on a new total over 21 it returns bust, takes the bet
    off the balance and moves to result; otherwise it returns hit and
    keeps balance and phase.  So the balance changes only on a bust, and
    on every bust when the bet is not zero.  With no card to draw it
    raises and changes nothing. *)
Theorem player_hit_effect (self : BlackjackGame) :
  (game_state self <> "playing" ->
   exists message, player_hit self = Returned ("invalid", message) self)
  /\ (game_state self = "playing" ->
      forall cards c,
        deck self = cards ++ [c] ->
        exists action message self',
          player_hit self = Returned (action, message) self'
          /\ player_hand self' = player_hand self ++ [c]
          /\ deck self' = cards
          /\ dealer_hand self' = dealer_hand self
          /\ current_bet self' = current_bet self
          /\ target_balance self' = target_balance self
          /\ (21 < hand_total (player_hand self') ->
              action = "bust"
              /\ balance self' = balance self - current_bet self
              /\ game_state self' = "result")
          /\ (hand_total (player_hand self') <= 21 ->
              action = "hit"
              /\ balance self' = balance self
              /\ game_state self' = "playing")
          /\ (balance self' <> balance self -> 21 < hand_total (player_hand self'))
          /\ (current_bet self <> 0 ->
              (balance self' <> balance self <-> 21 < hand_total (player_hand self'))))
  /\ (game_state self = "playing" ->
      deck self = [] ->
      player_hit self = Raised (ValueError "Deck is empty") self).
Proof.
  split; [|split].
  - intro H. eexists. now apply player_hit_invalid.
  - intros Hstate cards c Hdeck.
    rewrite <- (rev_involutive cards) in Hdeck.
    pose proof (player_hit_run self c (rev cards) Hstate Hdeck) as Hrun.
    cbv zeta in Hrun. fold (hand_total (player_hand self ++ [c])) in Hrun.
    rewrite rev_involutive in Hrun.
    destruct (Z.gtb_spec (hand_total (player_hand self ++ [c])) 21) as [Hbust | Hok].
    + eexists _, _, _. split; [exact Hrun|].
      cbn [deck player_hand dealer_hand current_bet target_balance game_state balance].
      do 5 (split; [reflexivity|]).
      repeat split; intros; try reflexivity; try lia.
    + eexists _, _, _. split; [exact Hrun|].
      cbn [deck player_hand dealer_hand current_bet target_balance game_state balance].
      do 5 (split; [reflexivity|]).
      repeat split; intros; try reflexivity; try lia; try congruence.
  - apply player_hit_empty_deck.
Qed.

Lemma player_hit_effect_witness :
  (exists message,
      player_hit classic_bet_100 = Returned ("invalid", message) classic_bet_100)
  /\ (exists message self',
         player_hit all_in_playing = Returned ("bust", message) self'
         /\ balance self' = 0 /\ game_state self' = "result").
Proof.
  split.
  - apply (player_hit_effect classic_bet_100). vm_compute. discriminate.
  - destruct (player_hit_effect all_in_playing) as (_ & H & _).
    destruct (H eq_refl (removelast (deck all_in_playing)) (mkCard HEARTS EIGHT) eq_refl)
      as (action & message & self' & Hrun & Hhand & _ & _ & _ & _ & Hbust & _).
    rewrite Hhand in Hbust.
    destruct Hbust as (-> & Hbal & Hphase); [vm_compute; reflexivity|].
    exists message, self'. split; [exact Hrun|]. split; [exact Hbal | exact Hphase].
Defined.

(** C10: neither [deal_initial_hands] nor [player_hit] looks at the
    session thresholds.  A player-only 21 on the deal pays out and leaves
    the phase at result, also when the balance has reached the target; a
    bust on a hit takes the bet and leaves the phase at result, also when
    the balance is zero or less.  [player_stand], from the same playing
    phase, does move to won or out_of_money at those balances. *)
Theorem thresholds_checked_only_on_stand (self : BlackjackGame) :
  (forall cards c1 c2 c3 c4 payout,
      deck self = cards ++ [c4; c3; c2; c1] ->
      hand_total [c1; c2] = 21 -> hand_total [c3; c4] <> 21 ->
      int_of_times_1_5 (current_bet self) = inr payout ->
      exists self',
        deal_initial_hands self = Returned tt self'
        /\ balance self' = balance self + payout
        /\ target_balance self' = target_balance self
        /\ game_state self' = "result"
        /\ (target_balance self' <= balance self' -> game_state self' <> "won"))
  /\ (game_state self = "playing" ->
      forall cards c,
        deck self = cards ++ [c] ->
        21 < hand_total (player_hand self ++ [c]) ->
        exists r self',
          player_hit self = Returned r self'
          /\ balance self' = balance self - current_bet self
          /\ game_state self' = "result"
          /\ (balance self' <= 0 -> game_state self' <> "out_of_money"))
  /\ (game_state self = "playing" ->
      forall r self',
        player_stand self = Returned r self' ->
        (target_balance self' <= balance self' -> game_state self' = "won")
        /\ (balance self' < target_balance self' -> balance self' <= 0 ->
            game_state self' = "out_of_money")).
Proof.
  split; [|split].
  - intros cards c1 c2 c3 c4 payout Hdeck Hp Hd Hpay.
    assert (deck self = rev (c1 :: c2 :: c3 :: c4 :: rev cards)) as Hdeck'.
    { rewrite Hdeck. simpl. rewrite rev_involutive, <- !app_assoc. reflexivity. }
    pose proof (deal_initial_hands_run self c1 c2 c3 c4 (rev cards) payout
                  Hdeck' Hpay) as Hrun.
    cbv zeta in Hrun. fold (hand_total [c1; c2]) (hand_total [c3; c4]) in Hrun.
    rewrite Hp in Hrun. apply Z.eqb_neq in Hd. rewrite Hd in Hrun.
    cbn [Z.eqb Pos.eqb andb orb negb] in Hrun.
    eexists. split; [exact Hrun|].
    cbn [balance target_balance game_state].
    repeat split. discriminate.
  - intros Hstate cards c Hdeck Hbust.
    rewrite <- (rev_involutive cards) in Hdeck.
    pose proof (player_hit_run self c (rev cards) Hstate Hdeck) as Hrun.
    cbv zeta in Hrun. fold (hand_total (player_hand self ++ [c])) in Hrun.
    apply Z.gtb_lt in Hbust. rewrite Hbust in Hrun.
    eexists _, _. split; [exact Hrun|].
    cbn [balance game_state]. repeat split. discriminate.
  - intros Hstate r self' Hret.
    destruct (player_stand_run self Hstate)
      as [(drawn & stack' & result & message & _ & _ & _ & _ & Hrun) | [Hrun _]];
      cbv zeta in Hrun; rewrite Hrun in Hret; [|discriminate].
    injection Hret as <- <-.
    cbn [balance target_balance game_state].
    set (b := if String.eqb result "win" then _ else _).
    split; intros.
    + destruct (Z.geb_spec b (target_balance self)); [reflexivity | lia].
    + destruct (Z.geb_spec b (target_balance self)); [lia|].
      destruct (Z.leb_spec b 0); [reflexivity | lia].
Qed.

Lemma thresholds_checked_only_on_stand_witness :
  (exists self',
      deal_initial_hands short_target_bet_100 = Returned tt self'
      /\ balance self' = 2150 /\ target_balance self' = 2100
      /\ game_state self' = "result")
  /\ (exists r self',
         player_hit all_in_playing = Returned r self'
         /\ balance self' = 0 /\ game_state self' = "result").
Proof.
  split.
  - destruct (thresholds_checked_only_on_stand short_target_bet_100) as (H & _).
    destruct (H (firstn 48 Deck.new) (mkCard SPADES ACE) (mkCard SPADES KING)
                (mkCard SPADES QUEEN) (mkCard SPADES JACK) 150)
      as (self' & Hrun & Hbal & Htarget & Hphase & _).
    + reflexivity.
    + reflexivity.
    + vm_compute. discriminate.
    + vm_compute. reflexivity.
    + exists self'. split; [exact Hrun|]. split; [exact Hbal|].
      split; [exact Htarget | exact Hphase].
  - destruct (thresholds_checked_only_on_stand all_in_playing) as (_ & H & _).
    destruct (H eq_refl (removelast (deck all_in_playing)) (mkCard HEARTS EIGHT) eq_refl)
      as (r & self' & Hrun & Hbal & Hphase & _).
    + vm_compute. reflexivity.
    + exists r, self'. split; [exact Hrun|]. split; [exact Hbal | exact Hphase].
Defined.

(** * Further properties of the code *)

(** ** Hand valuation *)

Lemma hard_total_app (a b : list Card) :
  hard_total (a ++ b) = hard_total a + hard_total b.
Proof. induction a as [|c a IH]; simpl hard_total; [|rewrite IH]; lia. Qed.

Lemma count_aces_le_length (cards : list Card) :
  (count_aces cards <= List.length cards)%nat.
Proof. unfold count_aces. apply filter_length_le. Qed.

(** A hand is bust exactly when it is bust with every ace counted as 1,
    and then its total is that sum; a hand that is not bust counts at
    most one ace as 11. *)
Theorem bust_iff_hard_bust (cards : list Card) :
  (21 < hand_total cards <-> 21 < hard_total cards)
  /\ (21 < hand_total cards -> hand_total cards = hard_total cards)
  /\ (hand_total cards <= 21 ->
      hand_total cards = hard_total cards
      \/ (has_ace_card cards /\ hand_total cards = hard_total cards + 10)).
Proof.
  unfold hand_total.
  destruct (calculate_hand_value_spec cards) as (k & Hk & Heq & Hstop & _).
  rewrite Heq. cbn [fst].
  pose proof (hard_total_length cards) as Hlen.
  pose proof (count_aces_le_length cards) as Hn.
  split; [split|split].
  - intro H. destruct Hstop as [Hle | ->]; [lia|]. rewrite Nat.sub_diag in H. lia.
  - intro H. lia.
  - intro H. destruct Hstop as [Hle | ->]; [lia|]. rewrite Nat.sub_diag. lia.
  - intro H.
    destruct (count_aces cards - k)%nat as [|[|j]] eqn:E.
    + left. lia.
    + right. split; [|lia]. apply count_aces_pos_iff. lia.
    + exfalso. lia.
Qed.

(** The value of a hand does not depend on the order of its cards or on
    their suits: hands with the same ranks have the same value. *)
Theorem hand_value_ignores_order_and_suits (a b : list Card) :
  Permutation (map rank a) (map rank b) ->
  calculate_hand_value a = calculate_hand_value b.
Proof. apply calculate_hand_value_rank_perm. Qed.

Lemma hand_value_ignores_order_and_suits_witness :
  calculate_hand_value [mkCard HEARTS KING; mkCard SPADES ACE; mkCard CLUBS SEVEN]
  = calculate_hand_value [mkCard DIAMONDS ACE; mkCard DIAMONDS SEVEN; mkCard CLUBS KING].
Proof.
  apply hand_value_ignores_order_and_suits. simpl.
  apply (Permutation_cons_append [ACE; SEVEN] KING).
Defined.

Lemma two_cards_not_bust (c1 c2 : Card) : hand_total [c1; c2] <= 21.
Proof.
  destruct c1 as [s1 r1], c2 as [s2 r2]. destruct r1, r2; vm_compute; discriminate.
Qed.

(** A hand of two cards, as [deal_initial_hands] deals them, is never
    bust: its total lies between 4 and 21, and it is 21 exactly when one
    card is an ace and the other counts ten. *)
Theorem two_card_hand_total (c1 c2 : Card) :
  4 <= hand_total [c1; c2] <= 21
  /\ (hand_total [c1; c2] = 21
      <-> (rank c1 = ACE /\ base_value (rank c2) = 10)
          \/ (base_value (rank c1) = 10 /\ rank c2 = ACE)).
Proof.
  destruct c1 as [s1 r1], c2 as [s2 r2]. cbn [rank].
  destruct r1, r2; vm_compute;
    (split; [split; discriminate|]);
    (split; [intro H; first [discriminate H | (left; split; reflexivity)
                             | (right; split; reflexivity)]
            | intros [[H1 H2] | [H1 H2]]; first [discriminate H1 | discriminate H2 | reflexivity]]).
Qed.

Lemma get_value_true_le_10 (c : Card) : get_value c true <= 10.
Proof. destruct c as [s []]; vm_compute; discriminate. Qed.

(** A hand under 17 that takes one more card ends at 26 or less. *)
Lemma hand_total_snoc_le_26 (hand : list Card) (c : Card) :
  hand_total hand <= 16 -> hand_total (hand ++ [c]) <= 26.
Proof.
  intro H. unfold hand_total in *.
  pose proof (calculate_hand_value_total_bounds hand) as [Hlo _].
  destruct (calculate_hand_value_spec (hand ++ [c])) as (k & Hk & Heq & Hstop & _).
  rewrite Heq. cbn [fst]. destruct Hstop as [Hle | ->]; [lia|].
  rewrite Nat.sub_diag, hard_total_app. simpl hard_total.
  pose proof (get_value_true_le_10 c). lia.
Qed.

(** ** The dealer's turn *)

(** When [player_stand] returns from the playing phase, a dealer who
    started at 26 or less ends between 17 and 26; a dealer already at 17
    or more draws nothing, and one under 17 draws at least one card. *)
Theorem dealer_final_total_range (self self' : BlackjackGame) (r : string * string) :
  game_state self = "playing" ->
  hand_total (dealer_hand self) <= 26 ->
  player_stand self = Returned r self' ->
  17 <= hand_total (dealer_hand self') <= 26
  /\ (17 <= hand_total (dealer_hand self) ->
      dealer_hand self' = dealer_hand self /\ deck self' = deck self)
  /\ (hand_total (dealer_hand self) < 17 ->
      (List.length (dealer_hand self) < List.length (dealer_hand self'))%nat).
Proof.
  intros Hstate Hinit Hret.
  destruct (player_stand_run self Hstate)
    as [(drawn & stack' & result & message & Hsplit & Hstop & Hbefore & _ & Hrun)
       | [Hrun _]]; cbv zeta in Hrun; rewrite Hrun in Hret; [|discriminate].
  injection Hret as _ <-. cbn [dealer_hand deck].
  split; [split; [assumption|] | split].
  - destruct (snoc_cases drawn) as [-> | (d & c & ->)].
    + now rewrite app_nil_r.
    + rewrite app_assoc. apply hand_total_snoc_le_26.
      specialize (Hbefore (List.length d)).
      rewrite firstn_app, firstn_all, Nat.sub_diag in Hbefore. cbn [firstn] in Hbefore.
      rewrite app_nil_r in Hbefore.
      assert (hand_total (dealer_hand self ++ d) < 17); [|lia].
      apply Hbefore. rewrite length_app. simpl. lia.
  - intro H17. destruct drawn as [|c drawn].
    + rewrite app_nil_r. split; [reflexivity|].
      simpl in Hsplit. rewrite <- Hsplit. apply rev_involutive.
    + exfalso. specialize (Hbefore O). cbn [firstn] in Hbefore.
      rewrite app_nil_r in Hbefore.
      assert (hand_total (dealer_hand self) < 17); [|lia].
      apply Hbefore. simpl. lia.
  - intro Hlt. destruct drawn as [|c drawn].
    + rewrite app_nil_r in Hstop. lia.
    + rewrite length_app. simpl. lia.
Qed.

Lemma dealer_final_total_range_witness :
  exists r self',
    player_stand classic_playing = Returned r self'
    /\ 17 <= hand_total (dealer_hand self') <= 26.
Proof.
  destruct (player_stand classic_playing) as [r self' | e self'] eqn:E.
  - exists r, self'. split; [reflexivity|].
    apply (dealer_final_total_range classic_playing self' r); [reflexivity | | exact E].
    vm_compute. discriminate.
  - vm_compute in E. discriminate E.
Defined.

(** ** The comparator on hand values *)

(** The totals of two hands are always valid arguments: [compare_hands]
    on them returns, and its result is bust exactly when the first hand
    is bust. *)
Theorem compare_hands_on_hand_totals (player dealer : list Card) :
  exists result message,
    compare_hands (PyInt (hand_total player)) (PyInt (hand_total dealer))
    = inr (result, message)
    /\ (result = "bust" <-> 21 < hand_total player).
Proof.
  rewrite compare_hands_valid
    by (apply valid_total_PyInt; unfold hand_total; apply calculate_hand_value_nonneg).
  cbn [int_of].
  destruct (Z.gtb_spec (hand_total player) 21).
  { eexists _, _. split; [reflexivity|]. tauto. }
  repeat match goal with |- context [if ?b then _ else _] => destruct b end;
    eexists _, _; (split; [reflexivity|]); (split; [discriminate | lia]).
Qed.

(** Between two valid totals that are not bust, exchanging the player
    and the dealer exchanges win and lose and keeps push, which is the
    result exactly when the totals are equal. *)
Theorem compare_hands_swap (p d : pyval) :
  ~ invalid_total p -> ~ invalid_total d ->
  int_of p <= 21 -> int_of d <= 21 ->
  (category (compare_hands p d) = Some "win"
   <-> category (compare_hands d p) = Some "lose")
  /\ (category (compare_hands p d) = Some "lose"
      <-> category (compare_hands d p) = Some "win")
  /\ (category (compare_hands p d) = Some "push" <-> int_of p = int_of d)
  /\ (category (compare_hands p d) = Some "push"
      <-> category (compare_hands d p) = Some "push").
Proof.
  intros Hp Hd Hp21 Hd21.
  rewrite (compare_hands_valid p d Hp Hd), (compare_hands_valid d p Hd Hp).
  destruct (Z.gtb_spec (int_of p) 21); [lia|].
  destruct (Z.gtb_spec (int_of d) 21); [lia|].
  destruct (Z.gtb_spec (int_of p) (int_of d)), (Z.gtb_spec (int_of d) (int_of p)),
    (Z.ltb_spec (int_of p) (int_of d)), (Z.ltb_spec (int_of d) (int_of p));
    try lia; cbn [category];
    repeat split; intros; try reflexivity; try discriminate; try lia.
Qed.

Lemma compare_hands_swap_witness :
  category (compare_hands (PyInt 19) (PyInt 20)) = Some "lose"
  <-> category (compare_hands (PyInt 20) (PyInt 19)) = Some "win".
Proof.
  apply (compare_hands_swap (PyInt 19) (PyInt 20)).
  - apply valid_total_PyInt. lia.
  - apply valid_total_PyInt. lia.
  - simpl. lia.
  - simpl. lia.
Defined.

(** ** Betting *)

(** [place_bet] never returns its "Game over" refusal: a bet that passed
    the first two tests is positive and within the balance, so the balance
    is positive.  Outside practice mode a balance of zero or less refuses
    every bet and leaves the object as it was. *)
Theorem place_bet_never_game_over (amount : Z) (self self' : BlackjackGame)
        (ok : bool) (message : string) :
  place_bet amount self = Returned (ok, message) self' ->
  message <> "Game over. Reset balance to play again."
  /\ (mode self <> "practice" -> balance self <= 0 -> ok = false /\ self' = self).
Proof.
  unfold place_bet, bind, get, assign, ret.
  destruct (String.eqb_spec (mode self) "practice") as [Hm | Hm].
  { intros [= <- <- <-]. split; [discriminate | contradiction]. }
  destruct (Z.leb_spec amount 0).
  { intros [= <- <- <-]. split; [discriminate | auto]. }
  destruct (Z.gtb_spec amount (balance self)).
  { intros [= <- <- <-]. split; [cbn; discriminate | auto]. }
  destruct (Z.leb_spec (balance self) 0); [lia|].
  intros [= <- <- <-]. split; [cbn; discriminate | intros; lia].
Qed.

Lemma place_bet_never_game_over_witness :
  exists message,
    place_bet 50 broke_after_bust = Returned (false, message) broke_after_bust
    /\ message <> "Game over. Reset balance to play again.".
Proof.
  exists "Insufficient balance. You have 0.".
  assert (place_bet 50 broke_after_bust
          = Returned (false, "Insufficient balance. You have 0.") broke_after_bust)
    as H by (vm_compute; reflexivity).
  split; [exact H|].
  apply (place_bet_never_game_over 50 broke_after_bust broke_after_bust false _ H).
Defined.

(** ** What each method leaves behind, however it ends *)

Lemma place_bet_after (amount : Z) (self : BlackjackGame) :
  let self' := state_after (place_bet amount self) in
  deck self' = deck self /\ player_hand self' = player_hand self
  /\ dealer_hand self' = dealer_hand self /\ balance self' = balance self
  /\ mode self' = mode self /\ starting_balance self' = starting_balance self
  /\ target_balance self' = target_balance self
  /\ (self' = self
      \/ (game_state self' = "dealing"
          /\ ((mode self = "practice" /\ current_bet self' = 0)
              \/ (current_bet self' = amount /\ 0 < amount <= balance self)))).
Proof.
  unfold place_bet, bind, get, assign, ret.
  destruct (String.eqb_spec (mode self) "practice") as [Hm | Hm].
  { cbn. repeat split. right. split; [reflexivity|]. left. now split. }
  destruct (Z.leb_spec amount 0). { cbn. repeat split. now left. }
  destruct (Z.gtb_spec amount (balance self)). { cbn. repeat split. now left. }
  destruct (Z.leb_spec (balance self) 0). { cbn. repeat split. now left. }
  cbn. repeat split. right. split; [reflexivity|]. right. split; [reflexivity | lia].
Qed.

(** The outcome of [deal_initial_hands] with four cards to deal, also
    when the payout cannot be computed. *)
Lemma deal_initial_hands_outcome (self : BlackjackGame) (c1 c2 c3 c4 : Card)
      (stack : list Card) :
  deck self = rev (c1 :: c2 :: c3 :: c4 :: stack) ->
  let player_total := fst (calculate_hand_value [c1; c2]) in
  let dealer_total := fst (calculate_hand_value [c3; c4]) in
  let dealt balance' game_state' result_message' :=
    {| starting_balance := starting_balance self;
       target_balance := target_balance self;
       mode := mode self;
       balance := balance';
       current_bet := current_bet self;
       deck := rev stack;
       player_hand := [c1; c2];
       dealer_hand := [c3; c4];
       game_state := game_state';
       result_message := result_message' |} in
  deal_initial_hands self
  = if (player_total =? 21) && negb (dealer_total =? 21)
    then match int_of_times_1_5 (current_bet self) with
         | inl e =>
             Raised e (dealt (balance self) "result" "Natural Blackjack! Player wins!")
         | inr payout =>
             Returned tt (dealt (balance self + payout) "result"
                            "Natural Blackjack! Player wins!")
         end
    else if (dealer_total =? 21) && negb (player_total =? 21)
    then Returned tt (dealt (balance self - current_bet self) "result"
                        "Dealer has Blackjack! Dealer wins.")
    else if (player_total =? 21) && (dealer_total =? 21)
    then Returned tt (dealt (balance self) "result" "Both have Blackjack! Push.")
    else Returned tt (dealt (balance self) "playing" (result_message self)).
Proof.
  intros Hdeck player_total dealer_total dealt.
  unfold deal_initial_hands, bind.
  rewrite (deal_card_top self c1 _ Hdeck). cbv beta iota.
  rewrite (deal_card_top _ c2 (c3 :: c4 :: stack)) by reflexivity.
  unfold assign at 1. cbv beta iota.
  rewrite (deal_card_top _ c3 (c4 :: stack)) by reflexivity. cbv beta iota.
  rewrite (deal_card_top _ c4 stack) by reflexivity.
  unfold assign, get, ret, call.
  cbn [player_hand dealer_hand set_deck set_player_hand set_dealer_hand].
  fold player_total dealer_total.
  destruct (player_total =? 21), (dealer_total =? 21);
    cbn [andb orb negb current_bet set_game_state set_result_message
         set_dealer_hand set_player_hand set_deck];
    try destruct (int_of_times_1_5 (current_bet self)); reflexivity.
Qed.

(** With four cards to deal, [deal_initial_hands] sets both hands from
    the top of the deck whether or not the settlement that follows raises. *)
Lemma deal_initial_hands_after (self : BlackjackGame) (c1 c2 c3 c4 : Card)
      (stack : list Card) :
  deck self = rev (c1 :: c2 :: c3 :: c4 :: stack) ->
  let self' := state_after (deal_initial_hands self) in
  deck self' = rev stack /\ player_hand self' = [c1; c2]
  /\ dealer_hand self' = [c3; c4] /\ current_bet self' = current_bet self
  /\ mode self' = mode self /\ starting_balance self' = starting_balance self
  /\ target_balance self' = target_balance self
  /\ ((game_state self' = "playing" /\ balance self' = balance self)
      \/ (game_state self' = "result"
          /\ (balance self' = balance self
              \/ balance self' = balance self - current_bet self
              \/ exists payout,
                   int_of_times_1_5 (current_bet self) = inr payout
                   /\ balance self' = balance self + payout))).
Proof.
  intros Hdeck. cbv zeta.
  rewrite (deal_initial_hands_outcome self c1 c2 c3 c4 stack Hdeck). cbv zeta.
  destruct (fst (calculate_hand_value [c1; c2]) =? 21),
    (fst (calculate_hand_value [c3; c4]) =? 21); cbn [andb orb negb];
    try destruct (int_of_times_1_5 (current_bet self)) as [e | payout] eqn:Hpay;
    cbn; repeat split; eauto 8.
Qed.

Lemma deck_top_short (cards : Deck.t) :
  (List.length cards < 4)%nat ->
  cards = [] \/ (exists c1, cards = rev [c1])
  \/ (exists c1 c2, cards = rev [c1; c2])
  \/ (exists c1 c2 c3, cards = rev [c1; c2; c3]).
Proof.
  intro H. pose proof (rev_involutive cards) as E. rewrite <- length_rev in H.
  destruct (rev cards) as [|c1 [|c2 [|c3 [|c4 l]]]]; simpl in H; try lia;
    rewrite <- E; eauto 8.
Qed.

(** With fewer than four cards the deal raises part way: money and phase
    are untouched and no card enters play. *)
Lemma deal_initial_hands_after_short (self : BlackjackGame) :
  (List.length (deck self) < 4)%nat ->
  let self' := state_after (deal_initial_hands self) in
  balance self' = balance self /\ current_bet self' = current_bet self
  /\ game_state self' = game_state self /\ mode self' = mode self
  /\ starting_balance self' = starting_balance self
  /\ target_balance self' = target_balance self
  /\ deck self' = []
  /\ ((player_hand self' = player_hand self /\ dealer_hand self' = dealer_hand self)
      \/ (exists c1 c2 rest,
             deck self = rest ++ [c2; c1]
             /\ player_hand self' = [c1; c2]
             /\ dealer_hand self' = dealer_hand self)).
Proof.
  intro H. unfold deal_initial_hands, bind.
  destruct (deck_top_short _ H)
    as [E | [(c1 & E) | [(c1 & c2 & E) | (c1 & c2 & c3 & E)]]].
  - rewrite (deal_card_empty _ E). cbn. repeat split; auto.
  - rewrite (deal_card_top self c1 [] E). cbv beta iota.
    rewrite deal_card_empty by reflexivity. cbn. repeat split; auto.
  - rewrite (deal_card_top self c1 [c2] E). cbv beta iota.
    rewrite (deal_card_top _ c2 []) by reflexivity. unfold assign at 1. cbv beta iota.
    rewrite deal_card_empty by reflexivity. cbn. repeat split.
    right. exists c1, c2, []. rewrite E. repeat split.
  - rewrite (deal_card_top self c1 [c2; c3] E). cbv beta iota.
    rewrite (deal_card_top _ c2 [c3]) by reflexivity. unfold assign at 1. cbv beta iota.
    rewrite (deal_card_top _ c3 []) by reflexivity. cbv beta iota.
    rewrite deal_card_empty by reflexivity. cbn. repeat split.
    right. exists c1, c2, [c3]. rewrite E. repeat split.
Qed.

Lemma player_hit_after (self : BlackjackGame) :
  let self' := state_after (player_hit self) in
  self' = self
  \/ (game_state self = "playing"
      /\ exists c,
          deck self = deck self' ++ [c]
          /\ player_hand self' = player_hand self ++ [c]
          /\ dealer_hand self' = dealer_hand self
          /\ current_bet self' = current_bet self
          /\ mode self' = mode self
          /\ starting_balance self' = starting_balance self
          /\ target_balance self' = target_balance self
          /\ ((21 < hand_total (player_hand self')
               /\ game_state self' = "result"
               /\ balance self' = balance self - current_bet self)
              \/ (hand_total (player_hand self') <= 21
                  /\ game_state self' = "playing"
                  /\ balance self' = balance self))).
Proof.
  destruct (String.eqb_spec (game_state self) "playing") as [Hstate | Hstate].
  - destruct (snoc_cases (deck self)) as [E | (cards & c & E)].
    + left. now rewrite (player_hit_empty_deck self Hstate E).
    + right. split; [assumption|]. exists c.
      assert (deck self = rev (c :: rev cards)) as E'
          by (simpl; now rewrite rev_involutive).
      pose proof (player_hit_run self c (rev cards) Hstate E') as Hrun.
      cbv zeta in Hrun. fold (hand_total (player_hand self ++ [c])) in Hrun.
      rewrite rev_involutive in Hrun. rewrite Hrun.
      destruct (Z.gtb_spec (hand_total (player_hand self ++ [c])) 21);
        cbn; repeat split; auto.
  - left. now rewrite (player_hit_invalid self Hstate).
Qed.

Lemma player_stand_after (self : BlackjackGame) :
  let self' := state_after (player_stand self) in
  self' = self
  \/ (game_state self = "playing"
      /\ exists drawn,
          deck self = deck self' ++ rev drawn
          /\ dealer_hand self' = dealer_hand self ++ drawn
          /\ player_hand self' = player_hand self
          /\ current_bet self' = current_bet self
          /\ mode self' = mode self
          /\ starting_balance self' = starting_balance self
          /\ target_balance self' = target_balance self
          /\ ((game_state self' = "playing" /\ balance self' = balance self)
              \/ ((game_state self' = "won" \/ game_state self' = "out_of_money"
                   \/ game_state self' = "result")
                  /\ (balance self' = balance self + current_bet self
                      \/ (balance self' = balance self - current_bet self
                          /\ hand_total (player_hand self) <= 21)
                      \/ balance self' = balance self)))).
Proof.
  destruct (String.eqb_spec (game_state self) "playing") as [Hstate | Hstate].
  - right. split; [assumption|].
    destruct (player_stand_run self Hstate)
      as [(drawn & stack' & result & message & Hsplit & _ & _ & Hcmp & Hrun)
         | [Hrun _]]; cbv zeta in Hrun; rewrite Hrun.
    + exists drawn. cbn [state_after deck dealer_hand player_hand current_bet mode
                          starting_balance target_balance game_state balance].
      split. { apply (f_equal (@rev Card)) in Hsplit.
               now rewrite rev_involutive, rev_app_distr in Hsplit. }
      do 6 (split; [reflexivity|]). right. split.
      * repeat match goal with |- context [if ?b then _ else _] => destruct b end; auto.
      * revert Hcmp. unfold compare_hands. cbn [isinstance_int negb orb int_of].
        destruct (_ <? 0), (_ <? 0); cbn [orb]; try discriminate.
        destruct (Z.gtb_spec (hand_total (player_hand self)) 21).
        { intros [= <- _]. cbn. auto. }
        repeat match goal with |- context [if ?b then _ else _] => destruct b end;
          intros [= <- _]; cbn; auto.
    + exists (rev (deck self)).
      cbn [state_after deck dealer_hand player_hand current_bet mode
           starting_balance target_balance game_state balance set_dealer_hand set_deck].
      rewrite rev_involutive. repeat split; auto.
  - left. now rewrite (player_stand_invalid self Hstate).
Qed.

(** ** Cards in play *)

Lemma Card_eq_dec (a b : Card) : {a = b} + {a <> b}.
Proof.
  destruct (Card_eqb a b) eqn:E.
  - left. now apply Card_eqb_eq.
  - right. intro H. apply Card_eqb_eq in H. congruence.
Qed.

Lemma count_occ_cons_app (c : Card) (l : list Card) (x : Card) :
  count_occ Card_eq_dec (c :: l) x
  = (count_occ Card_eq_dec [c] x + count_occ Card_eq_dec l x)%nat.
Proof. change (c :: l) with ([c] ++ l). apply count_occ_app. Qed.

(** Two lists built from the same pieces by appending and reversing are
    permutations of each other: count the occurrences piece by piece. *)
Ltac count_cards :=
  apply (Permutation_count_occ Card_eq_dec); intro;
  repeat (rewrite ?count_occ_app, ?count_occ_rev;
          match goal with
          | |- context [count_occ _ (?a :: ?l) ?x] =>
              lazymatch l with
              | nil => fail
              | _ => rewrite (count_occ_cons_app a l x)
              end
          end);
  rewrite ?count_occ_app, ?count_occ_rev; cbn [count_occ]; lia.

(** A list that, with some cards added, rearranges a list without
    repetition has no repetition either. *)
Lemma NoDup_part (part lost whole : list Card) :
  Permutation (part ++ lost) whole -> NoDup whole -> NoDup part.
Proof.
  intros Hperm Hnd. apply (NoDup_app_remove_r part lost).
  eapply Permutation_NoDup; [apply Permutation_sym, Hperm | assumption].
Qed.

Lemma player_hit_cards (self : BlackjackGame) :
  Permutation (cards_in_play (state_after (player_hit self))) (cards_in_play self).
Proof.
  unfold cards_in_play.
  destruct (player_hit_after self) as [-> | (_ & c & Hd & Hp & Hdl & _)];
    [apply Permutation_refl|].
  rewrite Hd, Hp, Hdl. count_cards.
Qed.

Lemma player_stand_cards (self : BlackjackGame) :
  Permutation (cards_in_play (state_after (player_stand self))) (cards_in_play self).
Proof.
  unfold cards_in_play.
  destruct (player_stand_after self) as [-> | (_ & drawn & Hd & Hdl & Hp & _)];
    [apply Permutation_refl|].
  rewrite Hd, Hp, Hdl. count_cards.
Qed.

(** [player_hit] and [player_stand] only move cards from the deck to a
    hand: however the call ends, the cards held by deck and hands
    together are the same as before. *)
Theorem hit_and_stand_conserve_cards (self : BlackjackGame) :
  Permutation (cards_in_play (state_after (player_hit self))) (cards_in_play self)
  /\ Permutation (cards_in_play (state_after (player_stand self))) (cards_in_play self).
Proof. split; [apply player_hit_cards | apply player_stand_cards]. Qed.

(** When [deal_initial_hands] returns, each hand holds two cards and the
    cards of deck and hands together are those the deck held before: the
    hands are replaced, and what they held before the call leaves play. *)
Theorem deal_replaces_hands_from_deck (self self' : BlackjackGame) :
  deal_initial_hands self = Returned tt self' ->
  Permutation (cards_in_play self') (deck self)
  /\ List.length (player_hand self') = 2%nat
  /\ List.length (dealer_hand self') = 2%nat
  /\ (List.length (deck self') + 4 = List.length (deck self))%nat.
Proof.
  intro Hret.
  destruct (Nat.lt_ge_cases (List.length (deck self)) 4) as [Hshort | Hlen].
  { destruct (deal_initial_hands_short self Hshort) as (s & Hs). congruence. }
  destruct (deck_top_four _ Hlen) as (c1 & c2 & c3 & c4 & stack & Hdeck).
  pose proof (deal_initial_hands_after self c1 c2 c3 c4 stack Hdeck) as H.
  cbv zeta in H. rewrite Hret in H. cbn [state_after] in H.
  destruct H as (Hd & Hp & Hdl & _).
  unfold cards_in_play. rewrite Hd, Hp, Hdl, Hdeck.
  split; [count_cards|]. split; [reflexivity|]. split; [reflexivity|].
  rewrite !length_rev. simpl. lia.
Qed.

Lemma deal_replaces_hands_from_deck_witness :
  exists self',
    deal_initial_hands classic_bet_100 = Returned tt self'
    /\ Permutation (cards_in_play self') (deck classic_bet_100).
Proof.
  destruct (deal_initial_hands classic_bet_100) as [[] self' | e self'] eqn:E.
  - exists self'. split; [reflexivity|].
    apply (deal_replaces_hands_from_deck classic_bet_100 self' E).
  - vm_compute in E. discriminate E.
Defined.

(** The deal never brings a card into play twice, however it ends. *)
Lemma deal_initial_hands_NoDup (self : BlackjackGame) :
  NoDup (cards_in_play self) ->
  NoDup (cards_in_play (state_after (deal_initial_hands self))).
Proof.
  intro Hnd. unfold cards_in_play in *.
  destruct (Nat.lt_ge_cases (List.length (deck self)) 4) as [Hshort | Hlen].
  - destruct (deal_initial_hands_after_short self Hshort)
      as (_ & _ & _ & _ & _ & _ & Hd & [[Hp Hdl] | (c1 & c2 & rest & Hdeck & Hp & Hdl)]);
      rewrite Hd, Hp, Hdl.
    + apply (NoDup_part _ (deck self) _) with (2 := Hnd). count_cards.
    + apply (NoDup_part _ (rest ++ player_hand self) _) with (2 := Hnd).
      rewrite Hdeck. count_cards.
  - destruct (deck_top_four _ Hlen) as (c1 & c2 & c3 & c4 & stack & Hdeck).
    destruct (deal_initial_hands_after self c1 c2 c3 c4 stack Hdeck)
      as (Hd & Hp & Hdl & _).
    rewrite Hd, Hp, Hdl.
    apply (NoDup_part _ (player_hand self ++ dealer_hand self) _) with (2 := Hnd).
    rewrite Hdeck. count_cards.
Qed.

Lemma deal_initial_hands_phase (self : BlackjackGame) :
  let self' := state_after (deal_initial_hands self) in
  current_bet self' = current_bet self
  /\ (game_state self' = game_state self \/ game_state self' = "playing"
      \/ game_state self' = "result").
Proof.
  cbv zeta.
  destruct (Nat.lt_ge_cases (List.length (deck self)) 4) as [Hshort | Hlen].
  - destruct (deal_initial_hands_after_short self Hshort) as (_ & Hb & Hs & _). auto.
  - destruct (deck_top_four _ Hlen) as (c1 & c2 & c3 & c4 & stack & Hdeck).
    destruct (deal_initial_hands_after self c1 c2 c3 c4 stack Hdeck)
      as (_ & _ & _ & Hb & _ & _ & _ & [[Hs _] | [Hs _]]); auto.
Qed.

Lemma reset_for_new_hand_outcome (shuffle : Deck.t -> Deck.t) (self : BlackjackGame) :
  reset_for_new_hand shuffle self
  = Returned tt
      {| starting_balance := starting_balance self;
         target_balance := target_balance self;
         mode := mode self;
         balance := balance self;
         current_bet := 0;
         deck := if Deck.remaining (deck self) <? 10
                 then shuffle Deck.new else deck self;
         player_hand := [];
         dealer_hand := [];
         game_state := "betting";
         result_message := "" |}.
Proof.
  unfold reset_for_new_hand, bind, assign, get, ret. cbn.
  destruct (Deck.remaining (deck self) <? 10); reflexivity.
Qed.

(** Through any sequence of calls, in any order, whether or not they
    raise and whatever order each shuffle leaves, no card is ever held twice by the deck and the hands, the bet
    is never negative, and the phase is one of betting, dealing, playing,
    result, won and out_of_money: the phase [lost] that the constructor's
    comment names is never entered. *)
Theorem reachable_invariant (self : BlackjackGame) :
  reachable self ->
  NoDup (cards_in_play self)
  /\ 0 <= current_bet self
  /\ (game_state self = "betting" \/ game_state self = "dealing"
      \/ game_state self = "playing" \/ game_state self = "result"
      \/ game_state self = "won" \/ game_state self = "out_of_money").
Proof.
  induction 1 as [shuffle sb tb m Hperm | amount self _ IH | self _ IH | self _ IH
                  | self _ IH | shuffle self Hperm _ IH | self _ IH].
  - unfold cards_in_play. cbn. rewrite app_nil_r. split; [|split; [lia | auto]].
    eapply Permutation_NoDup; [apply Permutation_sym, Hperm | apply new_deck_NoDup].
  - destruct IH as (Hnd & Hbet & Hphase).
    destruct (place_bet_after amount self)
      as (Hd & Hp & Hdl & _ & _ & _ & _ & [-> | (Hs & [[_ Hb] | [Hb Ha]])]);
      auto; unfold cards_in_play; rewrite Hd, Hp, Hdl, Hs, Hb;
      (split; [exact Hnd | split; [lia | auto]]).
  - destruct IH as (Hnd & Hbet & Hphase).
    split; [now apply deal_initial_hands_NoDup|].
    destruct (deal_initial_hands_phase self) as (Hb & Hs). rewrite Hb.
    split; [assumption|]. destruct Hs as [-> | [-> | ->]]; auto 7.
  - destruct IH as (Hnd & Hbet & Hphase).
    split; [eapply Permutation_NoDup;
            [apply Permutation_sym, player_hit_cards | assumption]|].
    destruct (player_hit_after self)
      as [-> | (_ & c & _ & _ & _ & Hb & _ & _ & _ & [(_ & -> & _) | (_ & -> & _)])];
      auto; rewrite Hb; auto 7.
  - destruct IH as (Hnd & Hbet & Hphase).
    split; [eapply Permutation_NoDup;
            [apply Permutation_sym, player_stand_cards | assumption]|].
    destruct (player_stand_after self)
      as [-> | (_ & drawn & _ & _ & _ & Hb & _ & _ & _
                & [(-> & _) | ([-> | [-> | ->]] & _)])];
      auto; rewrite Hb; auto 8.
  - destruct IH as (Hnd & Hbet & Hphase).
    rewrite reset_for_new_hand_outcome. unfold cards_in_play. cbn.
    rewrite app_nil_r. split; [|split; [lia | auto]].
    destruct (Deck.remaining (deck self) <? 10).
    + eapply Permutation_NoDup; [apply Permutation_sym, Hperm | apply new_deck_NoDup].
    + apply (NoDup_part _ (player_hand self ++ dealer_hand self) _) with (2 := Hnd).
      apply Permutation_refl.
  - destruct IH as (Hnd & Hbet & Hphase).
    unfold reset_balance_on_broke, bind, assign. cbn. auto 7.
Qed.

Lemma is_shuffle_rev : is_shuffle (@rev Card).
Proof. intro cards. apply Permutation_sym, Permutation_rev. Qed.

Lemma is_shuffle_id : is_shuffle (fun cards => cards).
Proof. intro cards. apply Permutation_refl. Qed.

Lemma play_round_reachable (shuffle : Deck.t -> Deck.t) (self : BlackjackGame) :
  is_shuffle shuffle -> reachable self -> reachable (play_round shuffle self).
Proof.
  intros Hperm H. unfold play_round.
  apply reach_reset; [exact Hperm|].
  apply reach_stand, reach_deal, reach_place_bet, H.
Qed.

Lemma shoe_session_reachable (starting_balance target_balance : Z) (mode : string) :
  reachable (shoe_session starting_balance target_balance mode).
Proof.
  unfold shoe_session. apply play_round_reachable; [apply is_shuffle_id|].
  cbv [Nat.iter nat_rect].
  repeat (apply play_round_reachable; [apply is_shuffle_rev|]).
  apply reach_init, is_shuffle_rev.
Qed.

Lemma second_shoe_reachable : reachable second_shoe.
Proof. apply shoe_session_reachable. Qed.

Lemma practice_second_shoe_reachable : reachable practice_second_shoe.
Proof.
  unfold practice_second_shoe.
  apply reach_deal, reach_place_bet, play_round_reachable;
    [apply is_shuffle_id | apply shoe_session_reachable].
Qed.

Lemma reachable_invariant_witness :
  deck (__init__ (@rev Card) 2000 25000 "classic") = rev Deck.new
  /\ deck second_shoe = Deck.new
  /\ NoDup (cards_in_play second_shoe) /\ 0 <= current_bet second_shoe.
Proof.
  split; [reflexivity|]. split; [vm_compute; reflexivity|].
  destruct (reachable_invariant second_shoe second_shoe_reachable)
    as (Hnd & Hbet & _).
  split; assumption.
Defined.

(** ** Money *)

Lemma binary_round_aux_sign (s : bool) (mx ex : Z) (lx : location) :
  match binary_round_aux 53 1024 s mx ex lx with
  | S754_finite s' _ _ => s' = s
  | _ => True
  end.
Proof.
  unfold binary_round_aux.
  destruct (shr_fexp 53 1024 mx ex lx) as [mrs e].
  destruct (shr_fexp 53 1024 _ e loc_Exact) as [mrs' e'].
  destruct (shr_m mrs'); trivial.
  destruct (Z.leb e' (1024 - 53)); trivial.
Qed.

Lemma int_of_float_nonneg (m : positive) (e payout : Z) :
  int_of_float (S754_finite false m e) = inr payout -> 0 <= payout.
Proof.
  destruct e as [|e|e]; unfold int_of_float, cond_Zopp.
  - intros [= <-]. lia.
  - assert (0 <= Zpos m * 2 ^ Zpos e) as H
        by (apply Z.mul_nonneg_nonneg; [lia | apply Z.pow_nonneg; lia]).
    intros [= <-]. exact H.
  - assert (0 <= Zpos m / 2 ^ Zpos e) as H
        by (apply Z.div_pos; [lia | apply Z.pow_pos_nonneg; lia]).
    intros [= <-]. exact H.
Qed.

(** The payout of a bet that is not negative is not negative, whatever
    rounding the float product underwent. *)
Lemma int_of_times_1_5_nonneg (bet payout : Z) :
  0 <= bet -> int_of_times_1_5 bet = inr payout -> 0 <= payout.
Proof.
  intros Hbet. unfold int_of_times_1_5, float_of_int, binary_normalize, prec, emax.
  destruct bet as [|p|p]; [now intros [= <-] | | lia].
  unfold binary_round. destruct (shl_align _ _ _) as [mz ez].
  pose proof (binary_round_aux_sign false (Zpos mz) ez loc_Exact) as Hs.
  destruct (binary_round_aux 53 1024 false (Zpos mz) ez loc_Exact)
    as [s | s | | s m e]; try discriminate.
  - cbn. now intros [= <-].
  - subst s. unfold one_and_a_half. cbn [SFmul xorb].
    pose proof (binary_round_aux_sign false (Zpos (m * 6755399441055744))
                  (e + -52) loc_Exact) as Hs'.
    destruct (binary_round_aux 53 1024 false _ (e + -52) loc_Exact)
      as [s' | s' | | s' m' e']; try discriminate.
    + cbn. now intros [= <-].
    + subst s'. apply int_of_float_nonneg.
Qed.

(** Closes the clauses of the invariant once balance, bet and phase of
    the new object are known. *)
Ltac phase_facts :=
  repeat split; try lia; intros; try discriminate;
  try match goal with
      | H : _ = _ \/ _ = _ |- _ => destruct H; discriminate
      end.

Section PhaseFacts.

Variables starting_balance0 target_balance0 : Z.
Variable mode0 : string.
Hypothesis starting_balance_nonneg : 0 <= starting_balance0.

(** For a caller that follows the phases, from a starting balance that is
    not negative: the balance never becomes negative, the bet is never
    negative and, while a hand is being dealt or played, never exceeds
    the balance, and the player's hand is never bust in the playing
    phase. *)
Theorem in_phase_invariant (self : BlackjackGame) :
  in_phase starting_balance0 target_balance0 mode0 self ->
  0 <= balance self
  /\ 0 <= current_bet self
  /\ (game_state self = "dealing" \/ game_state self = "playing" ->
      current_bet self <= balance self)
  /\ (game_state self = "playing" -> hand_total (player_hand self) <= 21)
  /\ starting_balance self = starting_balance0.
Proof.
  induction 1 as [shuffle Hperm | amount self _ IH Hs | self _ IH Hs | self _ IH
                  | self _ IH | shuffle self Hperm _ IH Hs | self _ IH Hs].
  - cbn. phase_facts.
  - destruct IH as (Hbal & Hbet & Hin & Hpl & Hsb).
    destruct (place_bet_after amount self)
      as (_ & Hp & _ & Hb & _ & Hsb' & _ & [-> | (Hs' & [[_ Hcb] | [Hcb Ha]])]).
    + auto.
    + rewrite Hb, Hcb, Hs', Hsb'. phase_facts.
    + rewrite Hb, Hcb, Hs', Hsb'. phase_facts.
  - destruct IH as (Hbal & Hbet & Hin & Hpl & Hsb).
    assert (current_bet self <= balance self) as Hle by (apply Hin; now left).
    destruct (Nat.lt_ge_cases (List.length (deck self)) 4) as [Hshort | Hlen].
    + destruct (deal_initial_hands_after_short self Hshort)
        as (Hb & Hcb & Hs' & _ & Hsb' & _).
      rewrite Hb, Hcb, Hs', Hsb', Hs. phase_facts.
    + destruct (deck_top_four _ Hlen) as (c1 & c2 & c3 & c4 & stack & Hdeck).
      destruct (deal_initial_hands_after self c1 c2 c3 c4 stack Hdeck)
        as (_ & Hp & _ & Hcb & _ & Hsb' & _ & Hcases).
      rewrite Hcb, Hsb', Hp.
      destruct Hcases as [[Hs' Hb] | [Hs' [Hb | [Hb | (payout & Hpay & Hb)]]]];
        rewrite Hs', Hb.
      * repeat split; try lia; intros; try apply two_cards_not_bust.
      * phase_facts.
      * phase_facts.
      * pose proof (int_of_times_1_5_nonneg _ _ Hbet Hpay).
        phase_facts.
  - destruct IH as (Hbal & Hbet & Hin & Hpl & Hsb).
    destruct (player_hit_after self)
      as [-> | (Hs & c & _ & _ & _ & Hcb & _ & Hsb' & _
                & [(_ & Hs' & Hb) | (Ht & Hs' & Hb)])]; auto.
    + assert (current_bet self <= balance self) as Hle by (apply Hin; now right).
      rewrite Hcb, Hsb', Hs', Hb.
      phase_facts.
    + assert (current_bet self <= balance self) as Hle by (apply Hin; now right).
      rewrite Hcb, Hsb', Hs', Hb. repeat split; try lia; intros; assumption.
  - destruct IH as (Hbal & Hbet & Hin & Hpl & Hsb).
    destruct (player_stand_after self)
      as [-> | (Hs & drawn & _ & _ & Hp & Hcb & _ & Hsb' & _
                & [(Hs' & Hb) | (Hs' & Hb)])]; auto.
    + assert (current_bet self <= balance self) as Hle by (apply Hin; now right).
      rewrite Hcb, Hsb', Hs', Hb, Hp. repeat split; try lia; intros; auto.
    + assert (current_bet self <= balance self) as Hle by (apply Hin; now right).
      rewrite Hcb, Hsb'.
      assert (0 <= balance (state_after (player_stand self))) as Hb'
          by (destruct Hb as [-> | [[-> _] | ->]]; lia).
      split; [assumption|]. split; [assumption|].
      split; [|split; [|assumption]].
      * intros [E | E]; rewrite E in Hs';
          destruct Hs' as [? | [? | ?]]; discriminate.
      * intro E. rewrite E in Hs'. destruct Hs' as [? | [? | ?]]; discriminate.
  - destruct IH as (Hbal & Hbet & Hin & Hpl & Hsb).
    rewrite reset_for_new_hand_outcome. cbn.
    phase_facts.
  - destruct IH as (Hbal & Hbet & Hin & Hpl & Hsb).
    unfold reset_balance_on_broke, bind, assign. cbn.
    phase_facts.
Qed.

End PhaseFacts.

Lemma play_round_in_phase (sb tb : Z) (m : string) (shuffle : Deck.t -> Deck.t)
      (self : BlackjackGame) :
  is_shuffle shuffle ->
  in_phase sb tb m self ->
  game_state self = "betting" ->
  game_state (state_after (place_bet 100 self)) = "dealing" ->
  game_state
    (state_after
       (player_stand
          (state_after (deal_initial_hands (state_after (place_bet 100 self))))))
  = "result" ->
  in_phase sb tb m (play_round shuffle self).
Proof.
  intros Hperm H Hbetting Hdealing Hresult. unfold play_round.
  apply phase_reset; [exact Hperm | | exact Hresult].
  apply phase_stand, phase_deal; [|exact Hdealing].
  apply phase_place_bet; [exact H | exact Hbetting].
Qed.

Lemma second_shoe_in_phase : in_phase 2000 25000 "classic" second_shoe.
Proof.
  unfold second_shoe, shoe_session.
  apply play_round_in_phase;
    [apply is_shuffle_id | | vm_compute; reflexivity ..].
  cbv [Nat.iter nat_rect].
  repeat (apply play_round_in_phase;
          [apply is_shuffle_rev | | vm_compute; reflexivity ..]).
  apply phase_init, is_shuffle_rev.
Qed.

Lemma in_phase_invariant_witness :
  deck (__init__ (@rev Card) 2000 25000 "classic") = rev Deck.new
  /\ deck second_shoe = Deck.new
  /\ 0 <= balance second_shoe /\ 0 <= current_bet second_shoe.
Proof.
  split; [reflexivity|]. split; [vm_compute; reflexivity|].
  destruct (in_phase_invariant 2000 25000 "classic" ltac:(lia)
              second_shoe second_shoe_in_phase) as (Hbal & Hbet & _).
  split; assumption.
Defined.

(** ** The payout *)

(** While [3 * bet] stays within 53 bits, [int(bet * 1.5)] never raises
    and is [3 * bet / 2] rounded toward zero: for a bet that is not
    negative, the bet plus half of it rounded down, so that an odd bet
    loses its half chip. *)
Theorem payout_three_to_two (bet : Z) :
  - 2 ^ 53 < 3 * bet < 2 ^ 53 ->
  exists payout,
    int_of_times_1_5 bet = inr payout
    /\ payout = Z.quot (3 * bet) 2
    /\ (0 <= bet -> payout = bet + bet / 2)
    /\ (0 <= bet -> Z.even bet = true -> 2 * payout = 3 * bet)
    /\ (0 <= bet -> Z.odd bet = true -> 2 * payout = 3 * bet - 1).
Proof.
  intro H. exists (Z.quot (3 * bet) 2).
  split; [now apply int_of_times_1_5_exact|]. split; [reflexivity|].
  split; [|split]; intro Hbet; rewrite Z.quot_div_nonneg by lia.
  - pose proof (Z.div_mod (3 * bet) 2 ltac:(lia)).
    pose proof (Z.mod_pos_bound (3 * bet) 2 ltac:(lia)).
    pose proof (Z.div_mod bet 2 ltac:(lia)).
    pose proof (Z.mod_pos_bound bet 2 ltac:(lia)). lia.
  - intro He. apply Z.even_spec in He as [k ->].
    replace (3 * (2 * k)) with ((3 * k) * 2) by ring.
    rewrite Z.div_mul by lia. ring.
  - intro Ho. apply Z.odd_spec in Ho as [k ->].
    replace (3 * (2 * k + 1)) with (1 + (3 * k + 1) * 2) by ring.
    rewrite Z.div_add by lia. change (1 / 2) with 0. ring.
Qed.

Lemma payout_three_to_two_witness :
  exists payout, int_of_times_1_5 25 = inr payout /\ 2 * payout = 3 * 25 - 1.
Proof.
  destruct (payout_three_to_two 25) as (payout & Hp & _ & _ & _ & Hodd).
  - split; vm_compute; reflexivity.
  - exists payout. split; [exact Hp|]. apply Hodd; [lia | reflexivity].
Defined.

(** ** Starting a round *)

Section RoundStart.

Variable shuffle : Deck.t -> Deck.t.
Hypothesis shuffle_perm : forall cards, Permutation (shuffle cards) cards.

(** [reset_for_new_hand] never raises: it empties both hands, the bet and
    the message, moves to betting and keeps the balance; it keeps a deck
    of ten cards or more and replaces a shorter one by a new deck in
    some order.  A second call right after changes nothing more. *)
Theorem reset_for_new_hand_idempotent (self : BlackjackGame) :
  exists self',
    reset_for_new_hand shuffle self = Returned tt self'
    /\ reset_for_new_hand shuffle self' = Returned tt self'
    /\ player_hand self' = [] /\ dealer_hand self' = []
    /\ current_bet self' = 0 /\ result_message self' = ""
    /\ game_state self' = "betting" /\ balance self' = balance self
    /\ 10 <= Deck.remaining (deck self')
    /\ (10 <= Deck.remaining (deck self) -> deck self' = deck self)
    /\ (Deck.remaining (deck self) < 10 -> Permutation (deck self') Deck.new).
Proof.
  eexists. split; [apply reset_for_new_hand_outcome|].
  rewrite reset_for_new_hand_outcome.
  cbn [deck player_hand dealer_hand current_bet result_message game_state
       balance starting_balance target_balance mode].
  assert (Deck.remaining (shuffle Deck.new) = 52) as Hnew.
  { unfold Deck.remaining. now rewrite (Permutation_length (shuffle_perm Deck.new)). }
  destruct (Z.ltb_spec (Deck.remaining (deck self)) 10) as [Hlt | Hge].
  - rewrite Hnew. change (52 <? 10) with false. cbv iota.
    repeat split; try lia. intros _. apply shuffle_perm.
  - destruct (Z.ltb_spec (Deck.remaining (deck self)) 10); [lia|].
    repeat split; try lia.
Qed.

(** A round opened by [reset_for_new_hand] gets its initial deal: whatever
    the bet attempt answered, [deal_initial_hands] then returns, as long as
    three times the bet stays within 53 bits, and leaves at least six
    cards in the deck. *)
Theorem round_start_has_cards (self : BlackjackGame) (amount : Z) :
  3 * amount < 2 ^ 53 ->
  exists self',
    deal_initial_hands
      (state_after (place_bet amount (state_after (reset_for_new_hand shuffle self))))
    = Returned tt self'
    /\ 6 <= Deck.remaining (deck self').
Proof.
  intro Hamount.
  rewrite reset_for_new_hand_outcome. cbn [state_after].
  match goal with
  | |- context [place_bet amount ?s] => set (s1 := s)
  end.
  assert (current_bet s1 = 0) as Hb1 by reflexivity.
  assert (10 <= Deck.remaining (deck s1)) as Hlen.
  { unfold s1. cbn [deck].
    destruct (Z.ltb_spec (Deck.remaining (deck self)) 10); [|assumption].
    unfold Deck.remaining.
    rewrite (Permutation_length (shuffle_perm Deck.new)). vm_compute. discriminate. }
  destruct (place_bet_after amount s1)
    as (Hd & _ & _ & _ & _ & _ & _ & Hcases).
  set (s2 := state_after (place_bet amount s1)) in *.
  assert (- 2 ^ 53 < 3 * current_bet s2 < 2 ^ 53) as Hrange.
  { destruct Hcases as [-> | (_ & [[_ ->] | [-> ?]])]; try rewrite Hb1; lia. }
  assert (4 <= List.length (deck s2))%nat as H4
      by (rewrite Hd; unfold Deck.remaining in Hlen; lia).
  destruct (deck_top_four _ H4) as (c1 & c2 & c3 & c4 & stack & Hdeck).
  rewrite (deal_initial_hands_run s2 c1 c2 c3 c4 stack _ Hdeck
             (int_of_times_1_5_exact _ Hrange)).
  eexists. split; [reflexivity|]. cbn [deck].
  unfold Deck.remaining in *. rewrite <- Hd, Hdeck, length_rev in Hlen.
  rewrite length_rev. simpl in Hlen. lia.
Qed.

End RoundStart.

Lemma reset_for_new_hand_idempotent_witness :
  exists self',
    reset_for_new_hand (@rev Card) test_loss_state = Returned tt self'
    /\ reset_for_new_hand (@rev Card) self' = Returned tt self'.
Proof.
  destruct (reset_for_new_hand_idempotent (@rev Card)
              (fun cards => Permutation_sym (Permutation_rev cards)) test_loss_state)
    as (self' & H1 & H2 & _).
  exists self'. split; assumption.
Defined.

Lemma round_start_has_cards_witness :
  exists self',
    deal_initial_hands
      (state_after (place_bet 10
                      (state_after (reset_for_new_hand (@rev Card) classic_playing))))
    = Returned tt self'
    /\ 6 <= Deck.remaining (deck self').
Proof.
  apply (round_start_has_cards (@rev Card)
           (fun cards => Permutation_sym (Permutation_rev cards)) classic_playing 10).
  vm_compute. reflexivity.
Defined.

(** ** What the phases tell *)

Lemma place_bet_practice (amount : Z) (self : BlackjackGame) :
  mode self = "practice" ->
  place_bet amount self
  = Returned (true, "Practice mode: Dealing cards...")
      (set_game_state "dealing" (set_current_bet 0 self)).
Proof.
  intro Hm. unfold place_bet, bind, get, assign, ret.
  now rewrite Hm, String.eqb_refl.
Qed.

Lemma player_stand_thresholds (self : BlackjackGame) :
  let self' := state_after (player_stand self) in
  self' = self
  \/ game_state self' = "playing"
  \/ (game_state self' = "won" /\ target_balance self' <= balance self')
  \/ (game_state self' = "out_of_money"
      /\ balance self' <= 0 /\ balance self' < target_balance self')
  \/ game_state self' = "result".
Proof.
  destruct (String.eqb_spec (game_state self) "playing") as [Hstate | Hstate].
  - destruct (player_stand_run self Hstate)
      as [(drawn & stack' & result & message & _ & _ & _ & _ & Hrun) | [Hrun _]];
      cbv zeta in Hrun; rewrite Hrun; cbn [state_after].
    + cbn [game_state balance target_balance].
      set (b := if String.eqb result "win" then _ else _).
      destruct (Z.geb_spec b (target_balance self)); [auto|].
      destruct (Z.leb_spec b 0); auto 7.
    + right. left. cbn. assumption.
  - left. now rewrite (player_stand_invalid self Hstate).
Qed.

(** Through any sequence of calls, the phase won is only ever held with
    a balance at or above the target, and the phase out_of_money only
    with a balance of zero or less that is below the target. *)
Theorem terminal_phases_certify_thresholds (self : BlackjackGame) :
  reachable self ->
  (game_state self = "won" -> target_balance self <= balance self)
  /\ (game_state self = "out_of_money" ->
      balance self <= 0 /\ balance self < target_balance self).
Proof.
  induction 1 as [shuffle sb tb m Hperm | amount self _ IH | self _ IH | self _ IH
                  | self _ IH | shuffle self Hperm _ IH | self _ IH].
  - cbn. split; discriminate.
  - destruct (place_bet_after amount self)
      as (_ & _ & _ & _ & _ & _ & _ & [-> | (Hs & _)]); [assumption|].
    rewrite Hs. split; discriminate.
  - destruct (Nat.lt_ge_cases (List.length (deck self)) 4) as [Hshort | Hlen].
    + destruct (deal_initial_hands_after_short self Hshort)
        as (Hb & _ & Hs & _ & _ & Ht & _).
      now rewrite Hb, Hs, Ht.
    + destruct (deck_top_four _ Hlen) as (c1 & c2 & c3 & c4 & stack & Hdeck).
      destruct (deal_initial_hands_after self c1 c2 c3 c4 stack Hdeck)
        as (_ & _ & _ & _ & _ & _ & _ & [[Hs _] | [Hs _]]);
        rewrite Hs; split; discriminate.
  - destruct (player_hit_after self)
      as [-> | (_ & c & _ & _ & _ & _ & _ & _ & _ & [(_ & Hs & _) | (_ & Hs & _)])];
      [assumption | |]; rewrite Hs; split; discriminate.
  - destruct (player_stand_thresholds self)
      as [-> | [Hs | [[Hs Hb] | [[Hs Hb] | Hs]]]]; [assumption | | | |];
      rewrite Hs; split; try discriminate; intros _; assumption.
  - rewrite reset_for_new_hand_outcome. cbn. split; discriminate.
  - unfold reset_balance_on_broke, bind, assign. cbn. split; discriminate.
Qed.

(** In practice mode no chip is ever won or lost: through any sequence of
    calls the bet is zero and the balance is the starting balance.  So a
    practice session whose target does not exceed its starting balance,
    as [BlackjackGame(0, 0, "practice")], goes to won at the first stand
    that returns. *)
Theorem practice_mode_keeps_balance (self : BlackjackGame) :
  reachable self ->
  mode self = "practice" ->
  current_bet self = 0
  /\ balance self = starting_balance self
  /\ (game_state self = "playing" ->
      target_balance self <= starting_balance self ->
      forall r self', player_stand self = Returned r self' ->
                      game_state self' = "won").
Proof.
  intros Hreach Hmode.
  assert (current_bet self = 0 /\ balance self = starting_balance self) as [Hbet Hbal].
  { induction Hreach as [shuffle sb tb m Hperm | amount self _ IH | self _ IH
                         | self _ IH | self _ IH | shuffle self Hperm _ IH
                         | self _ IH].
    - now cbn.
    - destruct (place_bet_after amount self) as (_ & _ & _ & _ & Hm & _).
      rewrite Hm in Hmode. destruct (IH Hmode) as [Hbet Hbal].
      rewrite (place_bet_practice amount self Hmode). now cbn.
    - destruct (Nat.lt_ge_cases (List.length (deck self)) 4) as [Hshort | Hlen].
      + destruct (deal_initial_hands_after_short self Hshort)
          as (Hb & Hcb & _ & Hm & Hsb & _).
        rewrite Hm in Hmode. destruct (IH Hmode). now rewrite Hb, Hcb, Hsb.
      + destruct (deck_top_four _ Hlen) as (c1 & c2 & c3 & c4 & stack & Hdeck).
        destruct (deal_initial_hands_after self c1 c2 c3 c4 stack Hdeck)
          as (_ & _ & _ & Hcb & Hm & Hsb & _ & Hcases).
        rewrite Hm in Hmode. destruct (IH Hmode) as [Hbet Hbal].
        rewrite Hcb, Hsb. split; [assumption|].
        destruct Hcases as [[_ ->] | [_ [-> | [-> | (payout & Hpay & ->)]]]];
          try lia.
        rewrite Hbet in Hpay. vm_compute in Hpay. injection Hpay as <-. lia.
    - destruct (player_hit_after self)
        as [E | (_ & c & _ & _ & _ & Hcb & Hm & Hsb & _ & Hcases)].
      + rewrite E in *. auto.
      + rewrite Hm in Hmode. destruct (IH Hmode) as [Hbet Hbal].
        rewrite Hcb, Hsb. split; [assumption|].
        destruct Hcases as [(_ & _ & ->) | (_ & _ & ->)]; lia.
    - destruct (player_stand_after self)
        as [E | (_ & drawn & _ & _ & _ & Hcb & Hm & Hsb & _ & Hcases)].
      + rewrite E in *. auto.
      + rewrite Hm in Hmode. destruct (IH Hmode) as [Hbet Hbal].
        rewrite Hcb, Hsb. split; [assumption|].
        destruct Hcases as [[_ ->] | [_ [-> | [[-> _] | ->]]]]; lia.
    - rewrite reset_for_new_hand_outcome in *. cbn in *.
      destruct (IH Hmode). auto.
    - unfold reset_balance_on_broke, bind, assign in *. cbn in *.
      destruct (IH Hmode). auto. }
  split; [assumption|]. split; [assumption|].
  intros Hstate Htarget r self' Hret.
  destruct (player_stand_run self Hstate)
    as [(drawn & stack' & result & message & _ & _ & _ & _ & Hrun) | [Hrun _]];
    cbv zeta in Hrun; rewrite Hrun in Hret; [|discriminate].
  injection Hret as _ <-. cbn [game_state]. rewrite Hbet.
  assert ((if String.eqb result "win" then balance self + 0
           else if String.eqb result "lose" then balance self - 0
           else balance self) = balance self) as ->
      by (destruct (String.eqb result "win"), (String.eqb result "lose"); lia).
  destruct (Z.geb_spec (balance self) (target_balance self)); [reflexivity | lia].
Qed.

(** ** Out of chips without a stand *)

Lemma place_bet_broke (amount : Z) (self : BlackjackGame) :
  mode self <> "practice" -> balance self <= 0 ->
  state_after (place_bet amount self) = self.
Proof.
  intros Hmode Hbal.
  destruct (place_bet_after amount self)
    as (_ & _ & _ & _ & _ & _ & _ & [Hsame | (_ & [[Hm _] | [_ Hamount]])]).
  - exact Hsame.
  - contradiction.
  - lia.
Qed.

Lemma broke_after_bust_in_phase :
  in_phase 100 25000 "classic" broke_after_bust.
Proof.
  pose proof (phase_init 100 25000 "classic" (@rev Card) is_shuffle_rev) as H0.
  pose proof (phase_place_bet _ _ _ 100 _ H0 eq_refl) as H1.
  pose proof (phase_deal _ _ _ _ H1 eq_refl) as H2.
  pose proof (phase_hit _ _ _ _ (phase_hit _ _ _ _ (phase_hit _ _ _ _ H2))) as H3.
  exact (phase_reset _ _ _ (@rev Card) _ is_shuffle_rev H3 eq_refl).
Qed.

(** Only [player_stand] looks at the balance to announce the end of the
    session.  A game outside practice mode that is left without chips in
    the result or betting phase, as a bust on a hit or a dealer blackjack
    leaves it, stays there whatever a caller that follows the phases does
    next: every bet is refused, hit and stand are invalid and
    [reset_for_new_hand] keeps the balance, so the phase is never
    out_of_money and [reset_balance_on_broke] never gets its turn. *)
Theorem broke_without_stand_is_dead_end (shuffle : Deck.t -> Deck.t)
        (self self' : BlackjackGame) :
  mode self <> "practice" ->
  balance self <= 0 ->
  game_state self = "result" \/ game_state self = "betting" ->
  phase_calls shuffle self self' ->
  balance self' = balance self
  /\ mode self' = mode self
  /\ (game_state self' = "result" \/ game_state self' = "betting")
  /\ game_state self' <> "out_of_money".
Proof.
  intros Hmode Hbal Hstate Hcalls.
  assert (balance self' = balance self /\ mode self' = mode self
          /\ (game_state self' = "result" \/ game_state self' = "betting")) as H.
  { induction Hcalls as [self | self mid self' Hcalls IH Hcall].
    - now repeat split.
    - specialize (IH Hmode Hbal Hstate). destruct IH as (Hb & Hm & Hs).
      assert (game_state mid <> "playing") as Hnot
          by (destruct Hs as [Hs | Hs]; rewrite Hs; discriminate).
      destruct Hcall as [amount mid _ | mid Hdeal | mid | mid | mid _ | mid Hout].
      + rewrite place_bet_broke by (rewrite ?Hm, ?Hb; assumption). now repeat split.
      + destruct Hs as [Hs | Hs]; rewrite Hs in Hdeal; discriminate.
      + rewrite (player_hit_invalid mid Hnot). now repeat split.
      + rewrite (player_stand_invalid mid Hnot). now repeat split.
      + rewrite reset_for_new_hand_outcome. cbn [state_after balance mode game_state].
        split; [exact Hb|]. split; [exact Hm|]. now right.
      + destruct Hs as [Hs | Hs]; rewrite Hs in Hout; discriminate. }
  destruct H as (Hb & Hm & Hs).
  split; [exact Hb|]. split; [exact Hm|]. split; [exact Hs|].
  destruct Hs as [Hs | Hs]; rewrite Hs; discriminate.
Qed.

Lemma broke_without_stand_is_dead_end_witness :
  in_phase 100 25000 "classic" broke_after_bust
  /\ balance broke_after_bust = 0
  /\ game_state (state_after (player_stand
                                (state_after (place_bet 100 broke_after_bust))))
     <> "out_of_money".
Proof.
  split; [exact broke_after_bust_in_phase|]. split; [reflexivity|].
  assert (phase_calls (@rev Card) broke_after_bust
            (state_after (player_stand
                            (state_after (place_bet 100 broke_after_bust)))))
    as Hcalls.
  { apply (calls_then (@rev Card) broke_after_bust
             (state_after (place_bet 100 broke_after_bust))).
    - apply (calls_then (@rev Card) broke_after_bust broke_after_bust).
      + apply calls_none.
      + apply (call_place_bet (@rev Card) 100 broke_after_bust). reflexivity.
    - apply call_stand. }
  assert (mode broke_after_bust <> "practice") as Hmode by (vm_compute; discriminate).
  assert (balance broke_after_bust <= 0) as Hbal by (vm_compute; discriminate).
  apply (broke_without_stand_is_dead_end (@rev Card) broke_after_bust _
           Hmode Hbal (or_intror eq_refl) Hcalls).
Defined.

Lemma terminal_phases_certify_thresholds_witness :
  deck (shoe_session 0 0 "practice") = Deck.new
  /\ game_state (state_after (player_stand practice_second_shoe)) = "won"
  /\ target_balance (state_after (player_stand practice_second_shoe))
     <= balance (state_after (player_stand practice_second_shoe)).
Proof.
  split; [vm_compute; reflexivity|].
  assert (game_state (state_after (player_stand practice_second_shoe)) = "won")
    as Hstate by (vm_compute; reflexivity).
  split; [exact Hstate|].
  destruct (terminal_phases_certify_thresholds
              (state_after (player_stand practice_second_shoe))
              (reach_stand _ practice_second_shoe_reachable)) as [Hwon _].
  exact (Hwon Hstate).
Defined.

Lemma practice_mode_keeps_balance_witness :
  deck (shoe_session 0 0 "practice") = Deck.new
  /\ balance practice_second_shoe = starting_balance practice_second_shoe
  /\ exists r self',
       player_stand practice_second_shoe = Returned r self'
       /\ game_state self' = "won".
Proof.
  split; [vm_compute; reflexivity|].
  assert (mode practice_second_shoe = "practice") as Hmode
      by (vm_compute; reflexivity).
  assert (game_state practice_second_shoe = "playing") as Hstate
      by (vm_compute; reflexivity).
  assert (target_balance practice_second_shoe
          <= starting_balance practice_second_shoe) as Htarget
      by (vm_compute; discriminate).
  destruct (practice_mode_keeps_balance practice_second_shoe
              practice_second_shoe_reachable Hmode) as (_ & Hbal & Hwon).
  split; [exact Hbal|].
  destruct (player_stand practice_second_shoe) as [r self' | e self'] eqn:E.
  - exists r, self'. split; [reflexivity|].
    apply (Hwon Hstate Htarget r self' eq_refl).
  - vm_compute in E. discriminate E.
Defined.

(** ** Bets and deals in any phase *)

(** Neither [place_bet] nor [deal_initial_hands] looks at the phase: in
    whatever phase they are called, a bet is accepted or refused with the
    same answer and an accepted bet or a deal that returns leaves the
    same object.  Nothing in the two methods keeps a caller from betting
    or dealing in the middle of a hand or after the session has ended. *)
Theorem bet_and_deal_ignore_phase (self : BlackjackGame) (phase : string) :
  (forall amount ok message self',
      place_bet amount self = Returned (ok, message) self' ->
      place_bet amount (set_game_state phase self)
      = Returned (ok, message)
          (if ok then self' else set_game_state phase self'))
  /\ (forall self',
         deal_initial_hands self = Returned tt self' ->
         deal_initial_hands (set_game_state phase self) = Returned tt self').
Proof.
  split.
  - intros amount ok message self'.
    unfold place_bet, bind, get, assign, ret.
    cbn [mode balance set_game_state].
    destruct (String.eqb (mode self) "practice"). { now intros [= <- <- <-]. }
    destruct (amount <=? 0). { now intros [= <- <- <-]. }
    destruct (amount >? balance self). { now intros [= <- <- <-]. }
    destruct (balance self <=? 0); now intros [= <- <- <-].
  - intros self' Hret.
    destruct (Nat.lt_ge_cases (List.length (deck self)) 4) as [Hshort | Hlen].
    { destruct (deal_initial_hands_short self Hshort) as (s & Hs). congruence. }
    destruct (deck_top_four _ Hlen) as (c1 & c2 & c3 & c4 & stack & Hdeck).
    rewrite (deal_initial_hands_outcome self c1 c2 c3 c4 stack Hdeck) in Hret.
    rewrite (deal_initial_hands_outcome (set_game_state phase self) c1 c2 c3 c4 stack Hdeck).
    exact Hret.
Qed.

Lemma bet_and_deal_ignore_phase_witness :
  exists self',
    deal_initial_hands (set_game_state "won" classic_bet_100) = Returned tt self'
    /\ game_state self' = "result" /\ balance self' = 2150.
Proof.
  destruct (deal_initial_hands classic_bet_100) as [[] self' | e self'] eqn:E.
  - exists self'. split.
    + apply (bet_and_deal_ignore_phase classic_bet_100 "won"). exact E.
    + vm_compute in E. injection E as <-. split; reflexivity.
  - vm_compute in E. discriminate E.
Defined.

(** ** Views of the hands *)

(** With the hole card hidden, a dealer hand of two cards or more is
    shown by its first card alone, without total: two hands with the same
    first card give the same text.  A hand of fewer than two cards is
    shown in full whether or not hiding was asked for. *)
Theorem hole_card_hidden (self : BlackjackGame) :
  (forall c c' rest,
      dealer_hand self = c :: c' :: rest ->
      get_dealer_hand_str self true = "Dealer: " +++ Card_str c +++ ", [hidden]")
  /\ ((List.length (dealer_hand self) < 2)%nat ->
      get_dealer_hand_str self true = get_dealer_hand_str self false).
Proof.
  unfold get_dealer_hand_str. split.
  - intros c c' rest ->. reflexivity.
  - intro H. destruct (dealer_hand self) as [|c [|c' rest]]; try reflexivity.
    simpl in H. lia.
Qed.

Lemma hole_card_hidden_witness :
  get_dealer_hand_str classic_playing true = "Dealer: 4♥, [hidden]".
Proof.
  destruct (hole_card_hidden classic_playing) as [H _].
  exact (H (mkCard HEARTS FOUR) (mkCard HEARTS FIVE) [] eq_refl).
Defined.

(** The text of a card names it: different cards have different texts. *)
Theorem Card_str_injective (a b : Card) : Card_str a = Card_str b -> a = b.
Proof.
  destruct a as [sa ra], b as [sb rb].
  destruct sa, sb, ra, rb; intro H; first [reflexivity | (vm_compute in H; discriminate H)].
Qed.

Lemma Card_str_injective_witness :
  Card_str (mkCard HEARTS TEN) = "10♥"
  /\ mkCard HEARTS TEN = mkCard HEARTS TEN.
Proof.
  split; [reflexivity|].
  apply (Card_str_injective (mkCard HEARTS TEN) (mkCard HEARTS TEN)). reflexivity.
Defined.

(** ** The soft label of the hand texts *)

Lemma soft_label (cards : list Card) :
  exists label,
    (if snd (calculate_hand_value cards) then " (soft)" else "") = label
    /\ (has_ace_card cards -> label = " (soft)")
    /\ (~ has_ace_card cards -> label = "").
Proof.
  rewrite calculate_hand_value_has_ace.
  destruct (Nat.ltb_spec 0 (count_aces cards)) as [Hpos | Hzero].
  - exists " (soft)". split; [reflexivity|]. split; [reflexivity|].
    intro Hno. apply count_aces_pos_iff in Hpos. contradiction.
  - exists "". split; [reflexivity|]. split; [|reflexivity].
    intro Hace. apply count_aces_pos_iff in Hace. lia.
Qed.

(** Both hand texts end in the total, followed by the label (soft) exactly
    when the hand holds an ace: the label does not depend on how the aces
    were counted, so a busted hand with an ace is shown soft as well. *)
Theorem hand_str_soft_label (self : BlackjackGame) :
  (exists label,
      get_player_hand_str self
      = "Player: " +++ String.concat ", " (map Card_str (player_hand self))
        +++ " = " +++ str_of_Z (hand_total (player_hand self)) +++ label
      /\ (has_ace_card (player_hand self) -> label = " (soft)")
      /\ (~ has_ace_card (player_hand self) -> label = ""))
  /\ (exists label,
         get_dealer_hand_str self false
         = "Dealer: " +++ String.concat ", " (map Card_str (dealer_hand self))
           +++ " = " +++ str_of_Z (hand_total (dealer_hand self)) +++ label
         /\ (has_ace_card (dealer_hand self) -> label = " (soft)")
         /\ (~ has_ace_card (dealer_hand self) -> label = "")).
Proof.
  split.
  - destruct (soft_label (player_hand self)) as (label & Hlabel & Hace & Hno).
    exists label. split; [|split; assumption].
    unfold get_player_hand_str, hand_total. rewrite <- Hlabel.
    now destruct (calculate_hand_value (player_hand self)) as [total has_ace].
  - destruct (soft_label (dealer_hand self)) as (label & Hlabel & Hace & Hno).
    exists label. split; [|split; assumption].
    unfold get_dealer_hand_str, hand_total. rewrite <- Hlabel. cbn [andb].
    now destruct (calculate_hand_value (dealer_hand self)) as [total has_ace].
Qed.

(** ** The module's demo *)

Section Demo.

Variable shuffle : Deck.t -> Deck.t.
Hypothesis shuffle_perm : forall cards, Permutation (shuffle cards) cards.

(** The demo at the end of the module, and the first test of
    [test_blackjack.py], run through whatever the shuffle: the bet of 100
    on a new game is accepted, the deal returns and leaves 48 cards, the
    phase is playing or result, the balance 2000, 2150 or 1900, and the
    dealer's text hides the second card. *)
Theorem demo_never_raises :
  exists self1 self2 c,
    place_bet 100 (__init__ shuffle 2000 25000 "classic")
    = Returned (true, "Bet placed: 100. Dealing cards...") self1
    /\ deal_initial_hands self1 = Returned tt self2
    /\ (game_state self2 = "playing" /\ balance self2 = 2000
        \/ game_state self2 = "result"
           /\ (balance self2 = 2000 \/ balance self2 = 2150 \/ balance self2 = 1900))
    /\ Deck.remaining (deck self2) = 48
    /\ get_dealer_hand_str self2 true = "Dealer: " +++ Card_str c +++ ", [hidden]".
Proof.
  set (self1 := set_game_state "dealing"
                  (set_current_bet 100 (__init__ shuffle 2000 25000 "classic"))).
  assert (List.length (deck self1) = 52%nat) as Hlen.
  { cbn [self1 deck set_game_state set_current_bet __init__].
    now rewrite (Permutation_length (shuffle_perm Deck.new)). }
  assert (4 <= List.length (deck self1))%nat as H4 by lia.
  destruct (deck_top_four _ H4) as (c1 & c2 & c3 & c4 & stack & Hdeck).
  assert (int_of_times_1_5 (current_bet self1) = inr 150) as Hpay
      by (apply (int_of_times_1_5_exact 100); lia).
  eexists self1, _, c3. split; [reflexivity|].
  split; [exact (deal_initial_hands_run self1 c1 c2 c3 c4 stack 150 Hdeck Hpay)|].
  cbn [game_state balance deck self1 set_game_state set_current_bet __init__
       current_bet].
  split; [|split].
  - destruct (fst (calculate_hand_value [c1; c2]) =? 21),
             (fst (calculate_hand_value [c3; c4]) =? 21); cbn; auto.
  - rewrite Hdeck in Hlen. unfold Deck.remaining.
    rewrite length_rev in *. cbn [List.length] in Hlen. lia.
  - reflexivity.
Qed.

End Demo.

Lemma demo_never_raises_witness :
  exists self1 self2 c,
    place_bet 100 (__init__ (@rev Card) 2000 25000 "classic")
    = Returned (true, "Bet placed: 100. Dealing cards...") self1
    /\ deal_initial_hands self1 = Returned tt self2
    /\ (game_state self2 = "playing" /\ balance self2 = 2000
        \/ game_state self2 = "result"
           /\ (balance self2 = 2000 \/ balance self2 = 2150 \/ balance self2 = 1900))
    /\ Deck.remaining (deck self2) = 48
    /\ get_dealer_hand_str self2 true = "Dealer: " +++ Card_str c +++ ", [hidden]".
Proof.
  apply (demo_never_raises (@rev Card)
           (fun cards => Permutation_sym (Permutation_rev cards))).
Defined.
